(** * idp_db: basket, inventory and order workflow

    A shallow embedding of the request handlers of [main.py] and of the
    authentication dependencies of [auth.py], over the tables declared in
    [models.py].

    Conventions of the embedding.
    - A table is the list of its rows in the order the store returns them;
      [products] is only ever read and written through its primary key
      and is a finite map from [Product.id] to the rest of the row.
    - [Integer] columns and Python integers are [Z].  [Numeric(10, 2)]
      columns holding a [Decimal] are a [Z] counting hundredths.
    - Python floats are IEEE 754 binary64 values ([spec_float] with the
      operations of [SpecFloat] at precision 53).
    - A handler is a function of the stored state.  It returns what the
      endpoint answers together with the states it committed, oldest
      first, one per [db.commit()].  Whatever a handler changes without
      committing is dropped when the request ends ([get_db] closes the
      session), so the stored state after a request is its last commit.
    - Primary keys are handed out in increasing order.  Foreign keys are
      not enforced on insertion (the SQLite engine selected by [LOCAL]
      does not); the [unique] constraint on [User.email] is.
    - A value written to a [Numeric(10, 2)] column is rounded to two
      fractional digits, and read back as such.
    - A commit that the store refuses because a value is outside the range
      of an [Integer] or [Numeric] column, or because of a foreign key on
      an engine that enforces it, is not modelled: the range depends on
      the engine and is not in the repository.  A statement about a
      handler that answers is about a run whose commits were accepted; a
      statement about a handler that raises an [HTTPException] holds with
      or without such refusals, since these are raised before any commit.
    - [Order.t] and [BasketItem.t] are rows.  The endpoints answer them
      through the schemas of [schemas.py], which add the related items
      and products as they are when the reply is built; no statement
      below is about that serialisation.
    - [order_date] is filled in by the store's clock and is left out. *)

From Stdlib Require Import ZArith String SpecFloat.
From stdpp Require Import gmap list pretty.

Open Scope Z_scope.

(** ** Python floats *)

Module Float.
Definition t := spec_float.
Definition prec : Z := 53.
Definition emax : Z := 1024.

(** [float(n)] for a Python integer [n]. *)
Definition of_int (n : Z) : t := binary_normalize prec emax n 0 false.
Definition add : t -> t -> t := SFadd prec emax.
Definition mul : t -> t -> t := SFmul prec emax.
Definition div : t -> t -> t := SFdiv prec emax.

(** [float(d)] for a [Decimal] [d] with two fractional digits, given as
    its number of hundredths.  Both operands of the division are exact
    below 2^53 hundredths, and a [Numeric(10, 2)] stays below 10^10, so
    the correctly rounded quotient is the float nearest to [d]. *)
Definition of_decimal (hundredths : Z) : t :=
  div (of_int hundredths) (of_int 100).

(** What a [Numeric(10, 2)] column keeps of a float: the nearest number
    of hundredths, a tie going away from zero.  A float that is not
    finite cannot arise from prices and quantities that were stored. *)
Definition to_decimal (f : t) : Z :=
  match f with
  | S754_finite negative m e =>
      let n := 100 * Z.pos m in
      let hundredths :=
        if 0 <=? e then n * 2 ^ e
        else (2 * n + 2 ^ (- e)) / (2 * 2 ^ (- e)) in
      if negative then - hundredths else hundredths
  | _ => 0
  end.
End Float.

(** ** Rows ([models.py]) *)

Module User.
Record t := mk { id : Z; name : string; email : string }.
End User.

Module Product.
(** The row without its primary key, which is the key of the map. *)
Record t := mk {
  name : string;
  description : option string;
  price : Z;
  stock : Z
}.
Definition set_stock (n : Z) (p : t) : t :=
  mk (name p) (description p) (price p) n.
End Product.

Module BasketItem.
Record t := mk { id : Z; user_id : Z; product_id : Z; quantity : Z }.
Definition set_quantity (n : Z) (b : t) : t :=
  mk (id b) (user_id b) (product_id b) n.
End BasketItem.

Module Order.
(** [total] is a [Numeric(10, 2)], in hundredths. *)
Record t := mk { id : Z; user_id : Z; total : Z }.
End Order.

Module OrderItem.
Record t := mk {
  id : Z;
  order_id : Z;
  product_id : Z;
  quantity : Z;
  price_at_purchase : Z
}.
End OrderItem.

Module DB.
Record t := mk {
  users : list User.t;
  products : gmap Z Product.t;
  basket_items : list BasketItem.t;
  orders : list Order.t;
  order_items : list OrderItem.t
}.
Definition set_users (us : list User.t) (db : t) : t :=
  mk us (products db) (basket_items db) (orders db) (order_items db).
Definition set_products (ps : gmap Z Product.t) (db : t) : t :=
  mk (users db) ps (basket_items db) (orders db) (order_items db).
Definition set_basket_items (bs : list BasketItem.t) (db : t) : t :=
  mk (users db) (products db) bs (orders db) (order_items db).
Definition set_orders (os : list Order.t) (db : t) : t :=
  mk (users db) (products db) (basket_items db) os (order_items db).
End DB.

(** The next value of a primary-key sequence. *)
Definition next_id (ids : list Z) : Z := 1 + foldr Z.max 0 ids.

(** ** Exceptions and replies *)

Inductive Exn :=
| HTTPException (status_code : Z) (detail : string)
| AttributeError
| IntegrityError.

Inductive Result (A : Type) :=
| Ok (a : A)
| Raise (e : Exn).
Arguments Ok {A} a.
Arguments Raise {A} e.

(** What a handler answers, and the states it committed. *)
Definition Reply (A : Type) : Type := Result A * list DB.t.

Definition answer {A} (r : Reply A) : Result A := fst r.
Definition commits {A} (r : Reply A) : list DB.t := snd r.

(** The stored state once the request is over. *)
Definition stored {A} (db : DB.t) (r : Reply A) : DB.t := List.last (commits r) db.

(** ** Identity gateway ([auth.py]) *)

Section Auth.
(** [verify_token] asks the external authentication service. *)
Variable verify_token : string -> option Z.

Definition get_current_user_id (token : string) : Result Z :=
  match verify_token token with
  | None => Raise (HTTPException 401 "Could not validate credentials")
  | Some user_id => Ok user_id
  end.

Definition get_current_user (token : string) (db : DB.t) : Reply User.t :=
  match get_current_user_id token with
  | Raise e => (Raise e, [])
  | Ok user_id =>
      match List.find (fun u => User.id u =? user_id) (DB.users db) with
      | Some user => (Ok user, [])
      | None =>
          let user := User.mk user_id "User" "user@example.com" in
          if existsb (fun u => String.eqb (User.email u) (User.email user))
               (DB.users db)
          then (Raise IntegrityError, [])
          else (Ok user, [DB.set_users (DB.users db ++ [user]) db])
      end
  end.

(** An endpoint declared with
    [user_id: int = Depends(auth_service.get_current_user_id)]. *)
Definition authenticated {A} (handler : Z -> DB.t -> Reply A)
    (token : string) (db : DB.t) : Reply A :=
  match get_current_user_id token with
  | Raise e => (Raise e, [])
  | Ok user_id => handler user_id db
  end.
End Auth.

(** ** User endpoints ([main.py]) *)

Inductive UserMe :=
| LocalUser (user : User.t)
| MinimalInfo (id : Z) (name : string).

Definition read_users_me (user_id : Z) (db : DB.t) : Reply UserMe :=
  match List.find (fun u => User.id u =? user_id) (DB.users db) with
  | None => (Ok (MinimalInfo user_id "Unknown User"), [])
  | Some user => (Ok (LocalUser user), [])
  end.

(** ** Basket endpoints *)

Definition basket_of (user_id : Z) (db : DB.t) : list BasketItem.t :=
  filter (fun b => BasketItem.user_id b = user_id) (DB.basket_items db).

(** Writing back a changed row, by primary key. *)
Definition update_basket_row (row : BasketItem.t) (rows : list BasketItem.t)
    : list BasketItem.t :=
  (fun r => if BasketItem.id r =? BasketItem.id row then row else r) <$> rows.

Definition add_to_basket (product_id quantity : Z) (user_id : Z) (db : DB.t)
    : Reply BasketItem.t :=
  match DB.products db !! product_id with
  | None => (Raise (HTTPException 404 "Product not found"), [])
  | Some product =>
      if Product.stock product <? quantity
      then (Raise (HTTPException 400 "Not enough stock available"), [])
      else
        match List.find
                (fun b => (BasketItem.user_id b =? user_id)
                          && (BasketItem.product_id b =? product_id))
                (DB.basket_items db) with
        | Some existing_item =>
            let existing_item :=
              BasketItem.set_quantity
                (BasketItem.quantity existing_item + quantity) existing_item in
            (Ok existing_item,
             [DB.set_basket_items
                (update_basket_row existing_item (DB.basket_items db)) db])
        | None =>
            let db_item :=
              BasketItem.mk (next_id (BasketItem.id <$> DB.basket_items db))
                user_id product_id quantity in
            (Ok db_item,
             [DB.set_basket_items (DB.basket_items db ++ [db_item]) db])
        end
  end.

Definition update_basket_item (basket_item_id quantity : Z) (user_id : Z)
    (db : DB.t) : Reply BasketItem.t :=
  match List.find
          (fun b => (BasketItem.id b =? basket_item_id)
                    && (BasketItem.user_id b =? user_id))
          (DB.basket_items db) with
  | None => (Raise (HTTPException 404 "Basket item not found"), [])
  | Some basket_item =>
      match DB.products db !! BasketItem.product_id basket_item with
      | None => (Raise AttributeError, [])
      | Some product =>
          if Product.stock product <? quantity
          then (Raise (HTTPException 400 "Not enough stock available"), [])
          else
            let basket_item := BasketItem.set_quantity quantity basket_item in
            (Ok basket_item,
             [DB.set_basket_items
                (update_basket_row basket_item (DB.basket_items db)) db])
      end
  end.

(** ** Order endpoints *)

(** The pricing loop of [create_order]: every product is looked up and
    its stock checked against the quantity of the item, and the total is
    accumulated in floating point. *)
Fixpoint price_basket (products : gmap Z Product.t)
    (basket_items : list BasketItem.t) (total : Float.t) : Result Float.t :=
  match basket_items with
  | [] => Ok total
  | item :: rest =>
      match products !! BasketItem.product_id item with
      | None =>
          Raise (HTTPException 404
                   ("Product " +:+ pretty (BasketItem.product_id item)
                      +:+ " not found"))
      | Some product =>
          if Product.stock product <? BasketItem.quantity item
          then Raise (HTTPException 400
                        ("Not enough stock for product "
                           +:+ Product.name product))
          else
            price_basket products rest
              (Float.add total
                 (Float.mul (Float.of_decimal (Product.price product))
                    (Float.of_int (BasketItem.quantity item))))
      end
  end.

(** [db.add(db_order); db.commit(); db.refresh(db_order)]: the float
    total is written to the [Numeric(10, 2)] column and the order is read
    back with what the column kept. *)
Definition insert_order (user_id : Z) (total : Float.t) (db : DB.t)
    : Order.t * DB.t :=
  let db_order :=
    Order.mk (next_id (Order.id <$> DB.orders db)) user_id
      (Float.to_decimal total) in
  (db_order, DB.set_orders (DB.orders db ++ [db_order]) db).

(** One round of the second loop of [create_order]. *)
Definition fulfil_item (order_id : Z) (item : BasketItem.t)
    (product : Product.t) (db : DB.t) : DB.t :=
  let order_item :=
    OrderItem.mk (next_id (OrderItem.id <$> DB.order_items db)) order_id
      (BasketItem.product_id item) (BasketItem.quantity item)
      (Product.price product) in
  DB.mk (DB.users db)
    (<[BasketItem.product_id item :=
         Product.set_stock (Product.stock product - BasketItem.quantity item)
           product]> (DB.products db))
    (filter (fun b => BasketItem.id b ≠ BasketItem.id item) (DB.basket_items db))
    (DB.orders db)
    (DB.order_items db ++ [order_item]).

(** The second loop of [create_order].  The session was expired by the
    first commit, so every product is read again; the rows of
    [basket_items] are those loaded before the first loop. *)
Fixpoint fulfil_basket (order_id : Z) (basket_items : list BasketItem.t)
    (db : DB.t) : Result DB.t :=
  match basket_items with
  | [] => Ok db
  | item :: rest =>
      match DB.products db !! BasketItem.product_id item with
      | None => Raise AttributeError
      | Some product =>
          fulfil_basket order_id rest (fulfil_item order_id item product db)
      end
  end.

Definition create_order (user_id : Z) (db : DB.t) : Reply Order.t :=
  let basket_items := basket_of user_id db in
  match basket_items with
  | [] => (Raise (HTTPException 400 "Basket is empty"), [])
  | _ :: _ =>
      match price_basket (DB.products db) basket_items (Float.of_int 0) with
      | Raise e => (Raise e, [])
      | Ok total =>
          let (db_order, db1) := insert_order user_id total db in
          match fulfil_basket (Order.id db_order) basket_items db1 with
          | Raise e => (Raise e, [db1])
          | Ok db2 => (Ok db_order, [db1; db2])
          end
      end
  end.

(** The loop of [cancel_order]; a product that is gone is skipped. *)
Definition restore_item (products : gmap Z Product.t) (item : OrderItem.t)
    : gmap Z Product.t :=
  match products !! OrderItem.product_id item with
  | Some product =>
      <[OrderItem.product_id item :=
          Product.set_stock (Product.stock product + OrderItem.quantity item)
            product]> products
  | None => products
  end.

Definition items_of_order (order_id : Z) (db : DB.t) : list OrderItem.t :=
  filter (fun i => OrderItem.order_id i = order_id) (DB.order_items db).

Definition cancel_order (order_id : Z) (user_id : Z) (db : DB.t)
    : Reply Order.t :=
  match List.find
          (fun o => (Order.id o =? order_id) && (Order.user_id o =? user_id))
          (DB.orders db) with
  | None => (Raise (HTTPException 404 "Order not found"), [])
  | Some order =>
      let order_items := items_of_order order_id db in
      (Ok order,
       [DB.set_products (fold_left restore_item order_items (DB.products db)) db])
  end.

(** ** Requests running side by side

    A [create_order] talks to the store three times: it reads the basket
    and prices it, it commits the order row, and it commits the items,
    the stock and the basket.  Between two of these another request may
    run.  [create_order_step] is one such stretch of the handler. *)

Inductive CreateOrderRun :=
| Received (user_id : Z)
| Priced (user_id : Z) (basket_items : list BasketItem.t) (total : Float.t)
| OrderStored (basket_items : list BasketItem.t) (db_order : Order.t)
| Answered (r : Result Order.t).

Definition create_order_step (run : CreateOrderRun) (db : DB.t)
    : CreateOrderRun * DB.t :=
  match run with
  | Received user_id =>
      let basket_items := basket_of user_id db in
      match basket_items with
      | [] => (Answered (Raise (HTTPException 400 "Basket is empty")), db)
      | _ :: _ =>
          match price_basket (DB.products db) basket_items (Float.of_int 0) with
          | Raise e => (Answered (Raise e), db)
          | Ok total => (Priced user_id basket_items total, db)
          end
      end
  | Priced user_id basket_items total =>
      let (db_order, db1) := insert_order user_id total db in
      (OrderStored basket_items db_order, db1)
  | OrderStored basket_items db_order =>
      match fulfil_basket (Order.id db_order) basket_items db with
      | Raise e => (Answered (Raise e), db)
      | Ok db2 => (Answered (Ok db_order), db2)
      end
  | Answered r => (Answered r, db)
  end.

(** Two requests and the store; [schedule] says whose turn it is
    ([false] for the first request, [true] for the second). *)
Fixpoint interleave (schedule : list bool) (a b : CreateOrderRun) (db : DB.t)
    : CreateOrderRun * CreateOrderRun * DB.t :=
  match schedule with
  | [] => (a, b, db)
  | false :: rest =>
      let (a', db') := create_order_step a db in interleave rest a' b db'
  | true :: rest =>
      let (b', db') := create_order_step b db in interleave rest a b' db'
  end.

(** ** Sequences of order operations *)

Inductive OrderOp :=
| CreateOrder (user_id : Z)
| CancelOrder (order_id : Z) (user_id : Z).

Definition run_op (db : DB.t) (op : OrderOp) : DB.t :=
  match op with
  | CreateOrder user_id => stored db (create_order user_id db)
  | CancelOrder order_id user_id => stored db (cancel_order order_id user_id db)
  end.

Definition run_ops (ops : list OrderOp) (db : DB.t) : DB.t :=
  fold_left run_op ops db.

Definition stock_of (product_id : Z) (db : DB.t) : option Z :=
  Product.stock <$> DB.products db !! product_id.

(** ** Quantities, totals and conditions used in the statements *)

(** The total in the words of the specification: the sum of quantity
    times unit price, in hundredths. *)
Definition decimal_total (products : gmap Z Product.t)
    (basket_items : list BasketItem.t) : Z :=
  foldr (fun item sum =>
           default 0 (Product.price <$> products !! BasketItem.product_id item)
           * BasketItem.quantity item + sum)
    0 basket_items.

(** The total as the pricing loop accumulates it. *)
Definition float_total (products : gmap Z Product.t)
    (basket_items : list BasketItem.t) : Float.t :=
  fold_left
    (fun total item =>
       Float.add total
         (Float.mul
            (Float.of_decimal
               (default 0
                  (Product.price <$> products !! BasketItem.product_id item)))
            (Float.of_int (BasketItem.quantity item))))
    basket_items (Float.of_int 0).

(** The total of an order of one row, [quantity] units at [price], as
    the pricing loop and the column make it. *)
Definition one_row_total (price quantity : Z) : Z :=
  Float.to_decimal
    (Float.add (Float.of_int 0)
       (Float.mul (Float.of_decimal price) (Float.of_int quantity))).

(** Whether that total is the product, for every price from 0 to
    [max_price] hundredths and every quantity from 0 to [max_quantity]. *)
Definition one_row_totals_exact (max_price max_quantity : Z) : bool :=
  forallb
    (fun price =>
       forallb (fun quantity => one_row_total price quantity =? price * quantity)
         (seqZ 0 (max_quantity + 1)))
    (seqZ 0 (max_price + 1)).

(** The quantity of a product in a list of basket rows or order items. *)
Definition basket_quantity (product_id : Z) (items : list BasketItem.t) : Z :=
  foldr (fun item sum =>
           if decide (BasketItem.product_id item = product_id)
           then BasketItem.quantity item + sum else sum)
    0 items.

Definition order_quantity (product_id : Z) (items : list OrderItem.t) : Z :=
  foldr (fun item sum =>
           if decide (OrderItem.product_id item = product_id)
           then OrderItem.quantity item + sum else sum)
    0 items.

(** The quantity of a product that an order holds, read off the table
    of order items. *)
Definition ordered_quantity (order_id product_id : Z) (db : DB.t) : Z :=
  foldr (fun item sum =>
           if decide (OrderItem.order_id item = order_id
                      ∧ OrderItem.product_id item = product_id)
           then OrderItem.quantity item + sum else sum)
    0 (DB.order_items db).

(** An order item made from a basket row for a given order. *)
Definition made_from (order_id : Z) (i : OrderItem.t) (b : BasketItem.t) : Prop :=
  OrderItem.order_id i = order_id
  ∧ OrderItem.product_id i = BasketItem.product_id b
  ∧ OrderItem.quantity i = BasketItem.quantity b.

(** Every order item belongs to a stored order (the foreign key of
    [OrderItem.order_id]). *)
Definition order_items_have_order (db : DB.t) : Prop :=
  Forall (fun i => OrderItem.order_id i ∈ Order.id <$> DB.orders db)
    (DB.order_items db).

(** Conditions on a stored state. *)
Definition stocks_nonneg (db : DB.t) : Prop :=
  map_Forall (fun _ p => 0 ≤ Product.stock p) (DB.products db).

Definition quantities_nonneg (db : DB.t) : Prop :=
  Forall (fun b => 0 ≤ BasketItem.quantity b) (DB.basket_items db)
  ∧ Forall (fun i => 0 ≤ OrderItem.quantity i) (DB.order_items db).

(** At most one basket row per user and product. *)
Definition basket_rows_unique (db : DB.t) : Prop :=
  NoDup ((fun b => (BasketItem.user_id b, BasketItem.product_id b))
           <$> DB.basket_items db).

(** The three conditions together are kept by both operations. *)
Definition sound (db : DB.t) : Prop :=
  stocks_nonneg db ∧ quantities_nonneg db ∧ basket_rows_unique db.

(** ** Sample states *)

Module Sample.
Definition widget : Product.t := Product.mk "widget" None 1999 5.
Definition dime : Product.t := Product.mk "dime" None 10 5.
Definition last_one : Product.t := Product.mk "last one" None 500 1.
Definition sold_out : Product.t := Product.mk "sold out" None 500 0.

(** User 1 has three widgets in the basket. *)
Definition shop : DB.t :=
  DB.mk [User.mk 1 "ann" "ann@example.com"] {[ 1 := widget ]}
    [BasketItem.mk 1 1 1 3] [] [].

(** User 1 has three dimes in the basket. *)
Definition dimes : DB.t :=
  DB.mk [User.mk 1 "ann" "ann@example.com"] {[ 1 := dime ]}
    [BasketItem.mk 1 1 1 3] [] [].

(** Users 1 and 2 both want the last unit of product 1. *)
Definition contended : DB.t :=
  DB.mk [User.mk 1 "ann" "ann@example.com"; User.mk 2 "bob" "bob@example.com"]
    {[ 1 := last_one ]}
    [BasketItem.mk 1 1 1 1; BasketItem.mk 2 2 1 1] [] [].

(** A product without stock and nothing else. *)
Definition bare : DB.t :=
  DB.mk [User.mk 1 "ann" "ann@example.com"] {[ 1 := sold_out ]} [] [] [].

(** A basket row with quantity -1, as [add_to_basket] accepts it. *)
Definition refund : DB.t :=
  stored bare (add_to_basket 1 (-1) 1 bare).

(** User 1 has ordered the three widgets and put the two that are left
    in the basket. *)
Definition returning : DB.t :=
  let ordered := stored shop (create_order 1 shop) in
  stored ordered (add_to_basket 1 2 1 ordered).

(** Two basket rows of user 1 for the same product, three units each. *)
Definition doubled : DB.t :=
  DB.mk [User.mk 1 "ann" "ann@example.com"] {[ 1 := widget ]}
    [BasketItem.mk 1 1 1 3; BasketItem.mk 2 1 1 3] [] [].

(** Two products at 9999999.99.  User 1 has 2000000001 units of the
    first in the basket, and -2000000000 units of the second. *)
Definition ledger : DB.t :=
  DB.mk [User.mk 1 "ann" "ann@example.com"]
    (<[1 := Product.mk "bulk" None 999999999 2000000001]>
       {[ 2 := Product.mk "returns" None 999999999 0 ]})
    [BasketItem.mk 1 1 1 2000000001; BasketItem.mk 2 1 2 (-2000000000)] [] [].

(** No local user at all. *)
Definition no_users : DB.t := DB.mk [] ∅ [] [] [].

(** The authentication service knows one token, of user 7. *)
Definition verify_token (token : string) : option Z :=
  if String.eqb token "valid" then Some 7 else None.
End Sample.

(** ** The remaining basket and order endpoints *)

Definition remove_basket_item (basket_item_id : Z) (user_id : Z) (db : DB.t)
    : Reply unit :=
  match List.find
          (fun b => (BasketItem.id b =? basket_item_id)
                    && (BasketItem.user_id b =? user_id))
          (DB.basket_items db) with
  | None => (Raise (HTTPException 404 "Basket item not found"), [])
  | Some basket_item =>
      (Ok tt,
       [DB.set_basket_items
          (filter (fun b => BasketItem.id b ≠ BasketItem.id basket_item)
             (DB.basket_items db)) db])
  end.

(** The bulk delete of [clear_basket]; the commit is made even when the
    user has no row. *)
Definition clear_basket (user_id : Z) (db : DB.t) : Reply unit :=
  (Ok tt,
   [DB.set_basket_items
      (filter (fun b => BasketItem.user_id b ≠ user_id) (DB.basket_items db))
      db]).

(** [get_orders] and [get_order]; a mapped [Order] always has its [items]
    relationship, so the [hasattr] branch never assigns. *)
Definition get_orders (user_id : Z) (db : DB.t) : Reply (list Order.t) :=
  (Ok (filter (fun o => Order.user_id o = user_id) (DB.orders db)), []).

Definition get_order (order_id : Z) (user_id : Z) (db : DB.t) : Reply Order.t :=
  match List.find
          (fun o => (Order.id o =? order_id) && (Order.user_id o =? user_id))
          (DB.orders db) with
  | None => (Raise (HTTPException 404 "Order not found"), [])
  | Some order => (Ok order, [])
  end.

(** ** The client of the authentication service ([auth.py]) *)

Module Json.
(** The fields the client reads in a body of the service. *)
Record t := mk { id : option Z; user_id : option Z; detail : option string }.
End Json.

Module Response.
Record t := mk { status_code : Z; json : Json.t }.
End Response.

Section AuthServiceClient.
(** [requests.post] on [/verify-token], by token, and on [/register], by
    name, e-mail and password. *)
Variable post_verify_token : string -> Response.t.
Variable post_register : string -> string -> string -> Response.t.

Definition verify_token (token : string) : option Z :=
  let response := post_verify_token token in
  if negb (Response.status_code response =? 200) then None
  else Json.user_id (Response.json response).

Definition register (name email password : string) : Result Json.t :=
  let response := post_register name email password in
  if negb (Response.status_code response =? 201)
  then Raise (HTTPException (Response.status_code response)
                (default "Registration failed"%string
                   (Json.detail (Response.json response))))
  else Ok (Response.json response).

(** A row inserted under an identifier of the service takes its place by
    primary key among the users. *)
Fixpoint insert_user (user : User.t) (users : list User.t) : list User.t :=
  match users with
  | [] => [user]
  | u :: rest =>
      if User.id user <? User.id u then user :: u :: rest
      else u :: insert_user user rest
  end.

(** [register_user].  The row is inserted under the identifier of the
    service, or under the next one of the table when the body has none;
    the e-mail was checked just before, so only the primary key can
    refuse the commit.  The [except] clause raises again, as it is, an
    exception that has a [detail]: the [HTTPException] of [register] has
    one, and so has the [IntegrityError] of a refused commit.  Its other
    branch, a 500 carrying the text of an exception without [detail], is
    taken when [requests.post] itself fails or the body is not a JSON
    object; [post_register] always answers with a body of the shape of
    [Json.t], so that no such exception comes up here. *)
Definition register_user (name email password : string) (db : DB.t)
    : Reply User.t :=
  if existsb (fun u => String.eqb (User.email u) email) (DB.users db)
  then (Raise (HTTPException 400 "Email already registered"), [])
  else
    match register name email password with
    | Raise e => (Raise e, [])
    | Ok auth_user =>
        let db_user :=
          User.mk (default (next_id (User.id <$> DB.users db))
                     (Json.id auth_user)) name email in
        if existsb (fun u => User.id u =? User.id db_user) (DB.users db)
        then (Raise IntegrityError, [])
        else (Ok db_user, [DB.set_users (insert_user db_user (DB.users db)) db])
    end.
End AuthServiceClient.

(** ** Sequences of requests *)

Inductive BasketOp :=
| AddToBasket (product_id quantity user_id : Z)
| UpdateBasketItem (basket_item_id quantity user_id : Z)
| RemoveBasketItem (basket_item_id user_id : Z)
| ClearBasket (user_id : Z).

Definition run_basket_op (db : DB.t) (op : BasketOp) : DB.t :=
  match op with
  | AddToBasket product_id quantity user_id =>
      stored db (add_to_basket product_id quantity user_id db)
  | UpdateBasketItem basket_item_id quantity user_id =>
      stored db (update_basket_item basket_item_id quantity user_id db)
  | RemoveBasketItem basket_item_id user_id =>
      stored db (remove_basket_item basket_item_id user_id db)
  | ClearBasket user_id => stored db (clear_basket user_id db)
  end.

Inductive Request :=
| BasketRequest (op : BasketOp)
| OrderRequest (op : OrderOp).

Definition run_request (db : DB.t) (r : Request) : DB.t :=
  match r with
  | BasketRequest op => run_basket_op db op
  | OrderRequest op => run_op db op
  end.

Definition run_requests (rs : list Request) (db : DB.t) : DB.t :=
  fold_left run_request rs db.

(** The quantity a request puts into a basket row, if it does, is not
    negative. *)
Definition quantity_nonneg (r : Request) : Prop :=
  match r with
  | BasketRequest (AddToBasket _ quantity _) => 0 ≤ quantity
  | BasketRequest (UpdateBasketItem _ quantity _) => 0 ≤ quantity
  | _ => True
  end.

(** The primary key of [basket_items]. *)
Definition basket_ids_unique (db : DB.t) : Prop :=
  NoDup (BasketItem.id <$> DB.basket_items db).

(** The primary key of [users] and the [unique] constraint on the e-mail. *)
Definition users_unique (db : DB.t) : Prop :=
  NoDup (User.id <$> DB.users db) ∧ NoDup (User.email <$> DB.users db).

(** An order item of a given order that froze a basket row: product,
    quantity, and the price the product had in [products]. *)
Definition frozen_from (order_id : Z) (products : gmap Z Product.t)
    (i : OrderItem.t) (b : BasketItem.t) : Prop :=
  made_from order_id i b
  ∧ Some (OrderItem.price_at_purchase i)
    = Product.price <$> products !! BasketItem.product_id b.

(** [db'] has all the orders and order items of [db], in the same
    places, and the same products under the same names and prices. *)
Definition grows_from (db db' : DB.t) : Prop :=
  DB.orders db `prefix_of` DB.orders db'
  ∧ DB.order_items db `prefix_of` DB.order_items db'
  ∧ ∀ product_id,
      (fun p => (Product.name p, Product.description p, Product.price p))
        <$> DB.products db' !! product_id
      = (fun p => (Product.name p, Product.description p, Product.price p))
          <$> DB.products db !! product_id.

(** * Properties *)

(** ** Helper lemmas *)

Lemma next_id_above (ids : list Z) (x : Z) : x ∈ ids → x < next_id ids.
Proof.
  unfold next_id. induction ids as [|y ids IH]; intros Hin.
  - by apply elem_of_nil in Hin.
  - apply elem_of_cons in Hin as [->|Hin]; simpl; [lia|].
    specialize (IH Hin). lia.
Qed.

Lemma find_none_iff {A} (f : A → bool) (l : list A) :
  List.find f l = None ↔ ∀ x, x ∈ l → f x = false.
Proof.
  split.
  - intros Hnone x Hx. apply (find_none f l Hnone). by apply list_elem_of_In.
  - induction l as [|y l IH]; intros Hall; [done|]. simpl.
    rewrite (Hall y) by left. apply IH. intros x Hx. apply Hall. by right.
Qed.

(** ** Empty basket *)

(** C7: when the user has no basket item, [create_order] answers 400
    "Basket is empty", commits nothing, and the stored state (products,
    basket items, orders and order items) is the one it started from. *)
Theorem create_order_empty_basket (user_id : Z) (db : DB.t) :
  basket_of user_id db = [] →
  answer (create_order user_id db)
    = Raise (HTTPException 400 "Basket is empty")
  ∧ commits (create_order user_id db) = []
  ∧ stored db (create_order user_id db) = db.
Proof.
  intros Hempty. unfold create_order, stored. by rewrite Hempty.
Qed.

Lemma create_order_empty_basket_witness :
  answer (create_order 2 Sample.shop)
    = Raise (HTTPException 400 "Basket is empty")
  ∧ commits (create_order 2 Sample.shop) = []
  ∧ stored Sample.shop (create_order 2 Sample.shop) = Sample.shop.
Proof. apply create_order_empty_basket. reflexivity. Defined.

(** ** Cancelling somebody else's order *)

(** C8: when no stored order has both the given identifier and the given
    owner, [cancel_order] answers 404 "Order not found", commits nothing,
    and the stored state, stock included, is unchanged. *)
Theorem cancel_order_not_found (order_id user_id : Z) (db : DB.t) :
  (∀ o, o ∈ DB.orders db → Order.id o = order_id → Order.user_id o ≠ user_id) →
  answer (cancel_order order_id user_id db)
    = Raise (HTTPException 404 "Order not found")
  ∧ commits (cancel_order order_id user_id db) = []
  ∧ stored db (cancel_order order_id user_id db) = db.
Proof.
  intros Hforeign. unfold cancel_order, stored.
  assert (List.find
            (fun o => (Order.id o =? order_id) && (Order.user_id o =? user_id))
            (DB.orders db) = None) as ->; [|done].
  apply find_none_iff. intros o Ho.
  destruct (Z.eqb_spec (Order.id o) order_id) as [Hid|]; [|done].
  destruct (Z.eqb_spec (Order.user_id o) user_id) as [Hu|]; [|done].
  by destruct (Hforeign o Ho Hid).
Qed.

Lemma cancel_order_not_found_witness :
  let db := stored Sample.shop (create_order 1 Sample.shop) in
  answer (cancel_order 1 2 db) = Raise (HTTPException 404 "Order not found")
  ∧ commits (cancel_order 1 2 db) = []
  ∧ stored db (cancel_order 1 2 db) = db.
Proof.
  apply cancel_order_not_found. intros o Ho _.
  apply list_elem_of_singleton in Ho. subst o. simpl. lia.
Defined.

(** ** What a successful [create_order] has done *)

Lemma fulfil_basket_Ok (order_id : Z) (basket_items : list BasketItem.t)
    (db : DB.t) :
  Forall (fun item => is_Some (DB.products db !! BasketItem.product_id item))
    basket_items →
  ∃ db2, fulfil_basket order_id basket_items db = Ok db2.
Proof.
  revert db. induction basket_items as [|item rest IH]; intros db Hall.
  - by exists db.
  - apply Forall_cons in Hall as [[product Hp] Hrest]. simpl. rewrite Hp.
    apply IH. eapply Forall_impl; [exact Hrest|].
    intros it [q Hq]. simpl.
    destruct (decide (BasketItem.product_id item = BasketItem.product_id it))
      as [Heq|Hne].
    + rewrite Heq, lookup_insert_eq. by eexists.
    + rewrite lookup_insert_ne by done. by eexists.
Qed.

Lemma price_basket_Ok_inv (products : gmap Z Product.t)
    (basket_items : list BasketItem.t) (total0 total : Float.t) :
  price_basket products basket_items total0 = Ok total →
  Forall (fun item =>
            ∃ product, products !! BasketItem.product_id item = Some product
                       ∧ BasketItem.quantity item ≤ Product.stock product)
    basket_items.
Proof.
  revert total0. induction basket_items as [|item rest IH]; intros total0 Hok.
  - constructor.
  - simpl in Hok.
    destruct (products !! BasketItem.product_id item) as [product|] eqn:Hp;
      [|done].
    destruct (Z.ltb_spec (Product.stock product) (BasketItem.quantity item));
      [done|].
    constructor; [by exists product | by eapply IH].
Qed.

(** What a [create_order] that answers with an order has done. *)
Lemma create_order_Ok_inv (user_id : Z) (db : DB.t) (order : Order.t) :
  answer (create_order user_id db) = Ok order →
  ∃ total db2,
    basket_of user_id db ≠ []
    ∧ price_basket (DB.products db) (basket_of user_id db) (Float.of_int 0)
      = Ok total
    ∧ order = Order.mk (next_id (Order.id <$> DB.orders db)) user_id
                (Float.to_decimal total)
    ∧ fulfil_basket (Order.id order) (basket_of user_id db)
        (DB.set_orders (DB.orders db ++ [order]) db) = Ok db2
    ∧ create_order user_id db
        = (Ok order, [DB.set_orders (DB.orders db ++ [order]) db; db2]).
Proof.
  unfold create_order, insert_order.
  destruct (basket_of user_id db) as [|item rest] eqn:Hbasket; [done|].
  destruct (price_basket _ _ _) as [total|e] eqn:Hprice; [|done].
  destruct (fulfil_basket _ _ _) as [db2|e] eqn:Hfulfil; [|done].
  intros [= <-]. by exists total, db2.
Qed.

(** ** Adding to a basket that already holds the product *)

(** What [add_to_basket] does when the user already has a row for the
    product: the stock is compared with the quantity being added, and
    the row is then raised by that quantity. *)
Lemma add_to_basket_existing (product_id quantity user_id : Z) (db : DB.t)
    (product : Product.t) (existing_item : BasketItem.t) :
  DB.products db !! product_id = Some product →
  List.find
    (fun b => (BasketItem.user_id b =? user_id)
              && (BasketItem.product_id b =? product_id))
    (DB.basket_items db) = Some existing_item →
  let merged :=
    BasketItem.set_quantity (BasketItem.quantity existing_item + quantity)
      existing_item in
  add_to_basket product_id quantity user_id db
  = if Product.stock product <? quantity
    then (Raise (HTTPException 400 "Not enough stock available"), [])
    else (Ok merged,
          [DB.set_basket_items
             (update_basket_row merged (DB.basket_items db)) db]).
Proof. intros Hp Hfind. unfold add_to_basket. by rewrite Hp, Hfind. Qed.

(** C4: [add_to_basket] does not compare the merged quantity with the
    stock.  Five widgets are in stock and user 1 already has three in the
    basket; adding three more is accepted and leaves six in the basket,
    whereas [update_basket_item] refuses to set that row to six. *)
Theorem add_to_basket_checks_added_quantity_only :
  stock_of 1 Sample.shop = Some 5
  ∧ basket_of 1 Sample.shop = [BasketItem.mk 1 1 1 3]
  ∧ add_to_basket 1 3 1 Sample.shop
    = (Ok (BasketItem.mk 1 1 1 6),
       [DB.set_basket_items [BasketItem.mk 1 1 1 6] Sample.shop])
  ∧ update_basket_item 1 6 1 Sample.shop
    = (Raise (HTTPException 400 "Not enough stock available"), []).
Proof. by vm_compute. Qed.

(** ** Local user rows *)

(** C9, as stated, fails: user 7 is authenticated by
    [get_current_user_id], the dependency of [read_users_me], the
    endpoint answers, and no local user row exists afterwards. *)
Lemma authenticated_without_user_row :
  let reply :=
    authenticated Sample.verify_token read_users_me "valid" Sample.no_users in
  get_current_user_id Sample.verify_token "valid" = Ok 7
  ∧ answer reply = Ok (MinimalInfo 7 "Unknown User")
  ∧ ¬ ∃ u, u ∈ DB.users (stored Sample.no_users reply) ∧ User.id u = 7.
Proof.
  split; [done|]. split; [done|].
  intros (u & Hu & _). vm_compute in Hu. by apply elem_of_nil in Hu.
Qed.

(** C9, amended: [get_current_user] creates the row
    [(user_id, "User", "user@example.com")] when the token is valid, no
    local user has that identifier and no local user holds the
    placeholder e-mail; the row is stored afterwards.  An endpoint that
    depends on [get_current_user_id] is run on the stored state as it
    is. *)
Theorem get_current_user_creates_row (verify_token : string → option Z)
    (token : string) (user_id : Z) (db : DB.t) :
  verify_token token = Some user_id →
  (∀ u, u ∈ DB.users db → User.id u ≠ user_id) →
  (∀ u, u ∈ DB.users db → User.email u ≠ "user@example.com"%string) →
  let shadow := User.mk user_id "User" "user@example.com" in
  answer (get_current_user verify_token token db) = Ok shadow
  ∧ commits (get_current_user verify_token token db)
    = [DB.set_users (DB.users db ++ [shadow]) db]
  ∧ shadow ∈ DB.users (stored db (get_current_user verify_token token db))
  ∧ ∀ A (handler : Z → DB.t → Reply A),
      authenticated verify_token handler token db = handler user_id db.
Proof.
  intros Hvalid Hid Hemail shadow.
  assert (get_current_user verify_token token db
          = (Ok shadow, [DB.set_users (DB.users db ++ [shadow]) db])) as Hrun.
  { unfold get_current_user, get_current_user_id. rewrite Hvalid.
    assert (List.find (fun u => User.id u =? user_id) (DB.users db) = None)
      as ->.
    { apply find_none_iff. intros u Hu. apply Z.eqb_neq. by apply Hid. }
    assert (existsb
              (fun u => String.eqb (User.email u)
                          (User.email (User.mk user_id "User" "user@example.com")))
              (DB.users db) = false) as ->; [|done].
    apply not_true_is_false. intros Hex.
    apply existsb_exists in Hex as (u & Hu & Heq).
    apply String.eqb_eq in Heq. apply (Hemail u); [|done].
    by apply list_elem_of_In. }
  rewrite Hrun. repeat split.
  - unfold stored. simpl. apply elem_of_app. right. by left.
  - intros A handler. unfold authenticated, get_current_user_id.
    by rewrite Hvalid.
Qed.

Lemma get_current_user_creates_row_witness :
  let shadow := User.mk 7 "User" "user@example.com" in
  answer (get_current_user Sample.verify_token "valid" Sample.shop) = Ok shadow
  ∧ commits (get_current_user Sample.verify_token "valid" Sample.shop)
    = [DB.set_users (DB.users Sample.shop ++ [shadow]) Sample.shop]
  ∧ shadow ∈ DB.users
      (stored Sample.shop
         (get_current_user Sample.verify_token "valid" Sample.shop))
  ∧ ∀ A (handler : Z → DB.t → Reply A),
      authenticated Sample.verify_token handler "valid" Sample.shop
      = handler 7 Sample.shop.
Proof.
  apply (get_current_user_creates_row Sample.verify_token "valid" 7 Sample.shop).
  - reflexivity.
  - intros u Hu. apply list_elem_of_singleton in Hu. by subst u.
  - intros u Hu. apply list_elem_of_singleton in Hu. by subst u.
Defined.

(** A second stranger cannot be given a row: the placeholder e-mail is
    taken and the commit violates the [unique] constraint. *)
Example get_current_user_placeholder_taken :
  let db := stored Sample.no_users
              (get_current_user Sample.verify_token "valid" Sample.no_users) in
  get_current_user (fun _ => Some 8) "other" db = (Raise IntegrityError, []).
Proof. reflexivity. Qed.

(** ** Two orders for the last unit *)

(** Run without interruption, the three stretches of a request are
    [create_order]. *)
Lemma create_order_steps (user_id : Z) (db : DB.t) :
  interleave [false; false; false] (Received user_id) (Received user_id) db
  = (Answered (answer (create_order user_id db)), Received user_id,
     stored db (create_order user_id db)).
Proof.
  unfold create_order, stored, interleave, create_order_step, insert_order.
  destruct (basket_of user_id db) as [|item rest]; [done|].
  destruct (price_basket _ _ _) as [total|e]; [|done].
  cbn [Order.id]. by destruct (fulfil_basket _ _ _).
Qed.

(** One request after the other: the second is turned down. *)
Example create_order_one_after_the_other :
  ∃ db,
    interleave [false; false; false; true; true; true]
      (Received 1) (Received 2) Sample.contended
    = (Answered (Ok (Order.mk 1 1 500)),
       Answered (Raise (HTTPException 400
                          "Not enough stock for product last one")),
       db)
    ∧ stock_of 1 db = Some 0.
Proof. eexists. split; [by vm_compute|]. by vm_compute. Qed.

(** C10: both requests price their basket while the last unit is still
    in stock, then each commits.  Both answer with an order, two order
    items are stored for the single unit, and the stock ends at -1. *)
Theorem concurrent_create_order_both_succeed :
  ∃ db,
    stock_of 1 Sample.contended = Some 1
    ∧ interleave [false; true; false; false; true; true]
        (Received 1) (Received 2) Sample.contended
      = (Answered (Ok (Order.mk 1 1 500)),
         Answered (Ok (Order.mk 2 2 500)),
         db)
    ∧ DB.order_items db = [OrderItem.mk 1 1 1 1 500; OrderItem.mk 2 2 1 1 500]
    ∧ stock_of 1 db = Some (-1).
Proof.
  eexists. split; [done|]. split; [by vm_compute|]. by vm_compute.
Qed.

(** ** The total of an order *)

Lemma price_basket_total (products : gmap Z Product.t)
    (basket_items : list BasketItem.t) (total0 total : Float.t) :
  price_basket products basket_items total0 = Ok total →
  total
  = fold_left
      (fun total item =>
         Float.add total
           (Float.mul
              (Float.of_decimal
                 (default 0
                    (Product.price <$> products !! BasketItem.product_id item)))
              (Float.of_int (BasketItem.quantity item))))
      basket_items total0.
Proof.
  revert total0. induction basket_items as [|item rest IH]; intros total0 Hok.
  - simpl in *. congruence.
  - simpl in Hok |- *.
    destruct (products !! BasketItem.product_id item) as [product|]; [|done].
    destruct (Product.stock product <? BasketItem.quantity item); [done|].
    by apply IH.
Qed.

Lemma price_basket_Ok (products : gmap Z Product.t)
    (basket_items : list BasketItem.t) (total0 : Float.t) :
  Forall (fun item =>
            ∃ product, products !! BasketItem.product_id item = Some product
                       ∧ BasketItem.quantity item ≤ Product.stock product)
    basket_items →
  ∃ total, price_basket products basket_items total0 = Ok total.
Proof.
  revert total0. induction basket_items as [|item rest IH]; intros total0 Hall.
  - by eexists.
  - apply Forall_cons in Hall as [(product & Hp & Hq) Hrest]. simpl.
    rewrite Hp.
    destruct (Z.ltb_spec (Product.stock product) (BasketItem.quantity item));
      [lia|].
    by apply IH.
Qed.


(** The basket of that sample is one that [add_to_basket] builds. *)
Example ledger_by_requests :
  run_requests
    [BasketRequest (AddToBasket 1 2000000001 1);
     BasketRequest (AddToBasket 2 (-2000000000) 1)]
    (DB.set_basket_items [] Sample.ledger)
  = Sample.ledger.
Proof. by vm_compute. Qed.



(** Three units at 19.99 are priced at the float of 59.97 and the order
    is answered with 59.97. *)
Example create_order_three_widgets :
  answer (create_order 1 Sample.shop) = Ok (Order.mk 1 1 5997)
  ∧ float_total (DB.products Sample.shop) (basket_of 1 Sample.shop)
    = Float.of_decimal 5997
  ∧ decimal_total (DB.products Sample.shop) (basket_of 1 Sample.shop) = 5997.
Proof. by vm_compute. Qed.

(** Three units at 0.10 are priced at 0.30000000000000004, which is not
    the float of 0.30; the column keeps 0.30 and the order is answered
    with the exact sum. *)
Example create_order_three_dimes :
  answer (create_order 1 Sample.dimes) = Ok (Order.mk 1 1 30)
  ∧ float_total (DB.products Sample.dimes) (basket_of 1 Sample.dimes)
    = S754_finite false 5404319552844596 (-54)
  ∧ Float.of_decimal 30 = S754_finite false 5404319552844595 (-54)
  ∧ decimal_total (DB.products Sample.dimes) (basket_of 1 Sample.dimes) = 30.
Proof. by vm_compute. Qed.

Lemma one_row_totals_exact_checked : one_row_totals_exact 2000 5 = true.
Proof. vm_cast_no_check (eq_refl true). Qed.

Lemma one_row_totals_exact_spec (max_price max_quantity price quantity : Z) :
  one_row_totals_exact max_price max_quantity = true →
  0 ≤ price ≤ max_price → 0 ≤ quantity ≤ max_quantity →
  one_row_total price quantity = price * quantity.
Proof.
  unfold one_row_totals_exact. intros Hall Hp Hq.
  rewrite forallb_forall in Hall. specialize (Hall price).
  rewrite forallb_forall in Hall. apply Z.eqb_eq.
  apply Hall; apply list_elem_of_In, elem_of_seqZ; lia.
Qed.

(** Up to 5 units at up to 20.00 are always priced exactly. *)
Lemma one_row_total_exact (price quantity : Z) :
  0 ≤ price ≤ 2000 → 0 ≤ quantity ≤ 5 →
  one_row_total price quantity = price * quantity.
Proof.
  apply one_row_totals_exact_spec, one_row_totals_exact_checked.
Qed.

(** For a basket of one row of up to 5 units of a product that costs up
    to 20.00, the order answered has the exact decimal total. *)
Lemma create_order_one_row_exact (user_id : Z) (db : DB.t)
    (item : BasketItem.t) (product : Product.t) (order : Order.t) :
  basket_of user_id db = [item] →
  DB.products db !! BasketItem.product_id item = Some product →
  0 ≤ Product.price product ≤ 2000 →
  0 ≤ BasketItem.quantity item ≤ 5 →
  answer (create_order user_id db) = Ok order →
  Order.total order = decimal_total (DB.products db) (basket_of user_id db).
Proof.
  intros Hbasket Hp Hprice Hq Hok.
  destruct (create_order_Ok_inv _ _ _ Hok)
    as (total & db2 & _ & Htotal & -> & _).
  apply price_basket_total in Htotal. rewrite Hbasket in Htotal |- *.
  cbn [fold_left] in Htotal. rewrite Hp in Htotal.
  cbn [fmap option_fmap option_map default] in Htotal. subst total.
  cbn [Order.total decimal_total foldr]. rewrite Hp.
  cbn [fmap option_fmap option_map default].
  change (Float.to_decimal _)
    with (one_row_total (Product.price product) (BasketItem.quantity item)).
  rewrite one_row_total_exact by done. unfold id. lia.
Qed.

(** ** Stock after creating and cancelling *)

Lemma made_from_quantity (order_id product_id : Z)
    (new_items : list OrderItem.t) (basket_items : list BasketItem.t) :
  Forall2 (made_from order_id) new_items basket_items →
  order_quantity product_id new_items = basket_quantity product_id basket_items.
Proof.
  induction 1 as [|i b ois bs (_ & Hp & Hq) _ IH]; [done|]. simpl.
  rewrite Hp, Hq, IH. done.
Qed.

(** The state left by the second loop of [create_order]. *)
Lemma fulfil_basket_inv (order_id : Z) (basket_items : list BasketItem.t)
    (db db2 : DB.t) :
  fulfil_basket order_id basket_items db = Ok db2 →
  DB.users db2 = DB.users db
  ∧ DB.orders db2 = DB.orders db
  ∧ DB.basket_items db2
    = filter (fun b => BasketItem.id b ∉ BasketItem.id <$> basket_items)
        (DB.basket_items db)
  ∧ (∃ new_items,
       DB.order_items db2 = DB.order_items db ++ new_items
       ∧ Forall2 (made_from order_id) new_items basket_items)
  ∧ ∀ product_id,
      DB.products db2 !! product_id
      = (fun p => Product.set_stock
                    (Product.stock p - basket_quantity product_id basket_items) p)
          <$> DB.products db !! product_id.
Proof.
  revert db. induction basket_items as [|item rest IH]; intros db Hok.
  - simpl in Hok. injection Hok as <-. repeat split.
    + symmetry. induction (DB.basket_items db) as [|b bs IHb]; [done|].
      rewrite filter_cons_True; [by f_equal|]. apply not_elem_of_nil.
    + exists []. by rewrite app_nil_r.
    + intros product_id. simpl.
      destruct (DB.products db !! product_id) as [[]|]; simpl; [|done].
      unfold Product.set_stock. simpl. do 2 f_equal. lia.
  - simpl in Hok.
    destruct (DB.products db !! BasketItem.product_id item) as [product|]
      eqn:Hp; [|done].
    apply IH in Hok as (Hu & Ho & Hb & (new_items & Hi & Hmade) & Hps).
    simpl in Hu, Ho, Hb, Hi. repeat split; [done|done| | |].
    + rewrite Hb, list_filter_filter. apply list_filter_iff. intros b.
      rewrite fmap_cons, not_elem_of_cons. tauto.
    + eexists (_ :: new_items). rewrite Hi, <- app_assoc. split; [done|].
      by constructor.
    + intros product_id. rewrite Hps. simpl.
      destruct (decide (BasketItem.product_id item = product_id)) as [<-|Hne].
      * rewrite lookup_insert_eq, Hp. simpl. unfold Product.set_stock. simpl.
        do 2 f_equal. lia.
      * by rewrite lookup_insert_ne.
Qed.

(** The products left by the loop of [cancel_order]. *)
Lemma restore_items_lookup (items : list OrderItem.t)
    (products : gmap Z Product.t) (product_id : Z) :
  fold_left restore_item items products !! product_id
  = (fun p => Product.set_stock
                (Product.stock p + order_quantity product_id items) p)
      <$> products !! product_id.
Proof.
  revert products. induction items as [|item rest IH]; intros products.
  - simpl. destruct (products !! product_id) as [[]|]; simpl; [|done].
    unfold Product.set_stock. simpl. do 2 f_equal. lia.
  - simpl. rewrite IH. unfold restore_item.
    destruct (decide (OrderItem.product_id item = product_id)) as [<-|Hne].
    + destruct (products !! OrderItem.product_id item) as [product|] eqn:Hp.
      * rewrite lookup_insert_eq. simpl. unfold Product.set_stock. simpl.
        do 2 f_equal. lia.
      * by rewrite Hp.
    + destruct (products !! OrderItem.product_id item) as [product|];
        [by rewrite lookup_insert_ne | done].
Qed.

Lemma find_app_fresh {A} (f : A → bool) (l : list A) (x : A) :
  (∀ y, y ∈ l → f y = false) → f x = true → List.find f (l ++ [x]) = Some x.
Proof.
  intros Hl Hx. induction l as [|y l IH]; simpl.
  - by rewrite Hx.
  - rewrite (Hl y) by left. apply IH. intros z Hz. apply Hl. by right.
Qed.

Lemma filter_none {A} (P : A → Prop) `{!∀ x, Decision (P x)} (l : list A) :
  (∀ x, x ∈ l → ¬ P x) → filter P l = [].
Proof.
  induction l as [|x l IH]; intros Hl; [done|].
  rewrite filter_cons_False by (apply Hl; left).
  apply IH. intros y Hy. apply Hl. by right.
Qed.

Lemma filter_all {A} (P : A → Prop) `{!∀ x, Decision (P x)} (l : list A) :
  Forall P l → filter P l = l.
Proof.
  induction 1 as [|x l Hx _ IH]; [done|].
  by rewrite filter_cons_True, IH.
Qed.

(** The order answered by [create_order] is found by [cancel_order], and
    its items are those the second loop has made. *)
Lemma created_order_items (user_id : Z) (db db2 : DB.t) (order : Order.t)
    (new_items : list OrderItem.t) :
  order_items_have_order db →
  Order.id order = next_id (Order.id <$> DB.orders db) →
  Order.user_id order = user_id →
  DB.orders db2 = DB.orders db ++ [order] →
  DB.order_items db2 = DB.order_items db ++ new_items →
  Forall (fun i => OrderItem.order_id i = Order.id order) new_items →
  List.find
    (fun o => (Order.id o =? Order.id order) && (Order.user_id o =? user_id))
    (DB.orders db2) = Some order
  ∧ items_of_order (Order.id order) db2 = new_items.
Proof.
  intros Hfk Hid Huser Horders Hitems Hnew. split.
  - rewrite Horders. apply find_app_fresh.
    + intros o Ho. apply andb_false_intro1, Z.eqb_neq.
      assert (Order.id o < next_id (Order.id <$> DB.orders db)).
      { apply next_id_above. by apply list_elem_of_fmap_2. }
      lia.
    + rewrite Huser, !Z.eqb_refl. done.
  - unfold items_of_order. rewrite Hitems, filter_app.
    rewrite filter_none, filter_all; [done|done|].
    intros i Hi.
    assert (OrderItem.order_id i < next_id (Order.id <$> DB.orders db)).
    { apply next_id_above. unfold order_items_have_order in Hfk.
      rewrite Forall_forall in Hfk. by apply Hfk. }
    lia.
Qed.

(** Both operations keep every order item attached to a stored order. *)
Lemma create_order_keeps_items_attached (user_id : Z) (db : DB.t) :
  order_items_have_order db →
  order_items_have_order (stored db (create_order user_id db)).
Proof.
  intros Hfk.
  assert (∀ order,
            Forall (fun i => OrderItem.order_id i
                             ∈ Order.id <$> DB.orders db ++ [order])
              (DB.order_items db)) as Hold.
  { intros order. eapply Forall_impl; [exact Hfk|]. intros i Hi.
    rewrite fmap_app. apply elem_of_app. by left. }
  unfold create_order, stored, insert_order.
  destruct (basket_of user_id db) as [|item rest] eqn:Hbasket; [done|].
  rewrite <- Hbasket. clear item rest Hbasket.
  destruct (price_basket _ _ _) as [total|e]; [|done].
  destruct (fulfil_basket _ _ _) as [db2|e] eqn:Hfulfil; [|by apply Hold].
  apply fulfil_basket_inv in Hfulfil
    as (_ & Ho & _ & (new_items & Hi & Hmade) & _).
  simpl in Ho, Hi |- *. unfold order_items_have_order. rewrite Ho, Hi.
  apply Forall_app. split; [by apply Hold|].
  eapply Forall2_Forall_l; [exact Hmade|]. apply Forall_true.
  intros i b (Hoid & _). rewrite Hoid, fmap_app. apply elem_of_app.
  right. by left.
Qed.

Lemma cancel_order_keeps_items_attached (order_id user_id : Z) (db : DB.t) :
  order_items_have_order db →
  order_items_have_order (stored db (cancel_order order_id user_id db)).
Proof.
  intros Hfk. unfold cancel_order, stored.
  by destruct (List.find _ _).
Qed.

Lemma run_ops_keeps_items_attached (ops : list OrderOp) (db : DB.t) :
  order_items_have_order db → order_items_have_order (run_ops ops db).
Proof.
  revert db. induction ops as [|op ops IH]; intros db Hfk; [done|].
  simpl. apply IH. destruct op as [user_id|order_id user_id]; simpl.
  - by apply create_order_keeps_items_attached.
  - by apply cancel_order_keeps_items_attached.
Qed.

(** ** The two commits of [create_order] *)

(** C1: [create_order] does not commit once.  Whenever it answers with an
    order it has committed twice: the first commit stores the order row
    and nothing else (same products, same basket items, same order
    items); the order items, one per basket row, come with the second
    commit. *)
Theorem create_order_commits_order_row_first (user_id : Z) (db : DB.t)
    (order : Order.t) :
  answer (create_order user_id db) = Ok order →
  ∃ db2 new_items,
    commits (create_order user_id db)
      = [DB.mk (DB.users db) (DB.products db) (DB.basket_items db)
           (DB.orders db ++ [order]) (DB.order_items db);
         db2]
    ∧ DB.orders db2 = DB.orders db ++ [order]
    ∧ DB.order_items db2 = DB.order_items db ++ new_items
    ∧ Forall2 (made_from (Order.id order)) new_items (basket_of user_id db)
    ∧ basket_of user_id db ≠ [].
Proof.
  intros Hok.
  destruct (create_order_Ok_inv _ _ _ Hok)
    as (total & db2 & Hne & _ & _ & Hfulfil & ->).
  destruct (fulfil_basket_inv _ _ _ _ Hfulfil)
    as (_ & Horders & _ & (new_items & Hitems & Hmade) & _).
  by exists db2, new_items.
Qed.

Lemma create_order_commits_order_row_first_witness :
  ∃ db2 new_items,
    commits (create_order 1 Sample.shop)
      = [DB.mk (DB.users Sample.shop) (DB.products Sample.shop)
           (DB.basket_items Sample.shop)
           (DB.orders Sample.shop
              ++ [Order.mk 1 1 5997])
           (DB.order_items Sample.shop);
         db2]
    ∧ DB.orders db2
      = DB.orders Sample.shop ++ [Order.mk 1 1 5997]
    ∧ DB.order_items db2 = DB.order_items Sample.shop ++ new_items
    ∧ Forall2 (made_from (Order.id (Order.mk 1 1 5997)))
        new_items (basket_of 1 Sample.shop)
    ∧ basket_of 1 Sample.shop ≠ [].
Proof.
  apply (create_order_commits_order_row_first 1 Sample.shop
           (Order.mk 1 1 5997)).
  vm_compute. reflexivity.
Defined.

(** After the first commit of the sample order the store holds order 1
    without any item, the widgets are still in stock and still in the
    basket. *)
Example order_row_without_items :
  ∃ db1 db2,
    commits (create_order 1 Sample.shop) = [db1; db2]
    ∧ List.find (fun o => Order.id o =? 1) (DB.orders db1)
        = Some (Order.mk 1 1 5997)
    ∧ items_of_order 1 db1 = []
    ∧ stock_of 1 db1 = Some 5
    ∧ basket_of 1 db1 = [BasketItem.mk 1 1 1 3]
    ∧ items_of_order 1 db2 = [OrderItem.mk 1 1 1 3 1999]
    ∧ stock_of 1 db2 = Some 2
    ∧ basket_of 1 db2 = [].
Proof. do 2 eexists. split; [reflexivity|]. by vm_compute. Qed.

Lemma cancel_order_Ok_inv (order_id user_id : Z) (db : DB.t) (order : Order.t) :
  answer (cancel_order order_id user_id db) = Ok order →
  List.find
    (fun o => (Order.id o =? order_id) && (Order.user_id o =? user_id))
    (DB.orders db) = Some order
  ∧ cancel_order order_id user_id db
    = (Ok order,
       [DB.set_products
          (fold_left restore_item (items_of_order order_id db) (DB.products db))
          db]).
Proof.
  unfold cancel_order. destruct (List.find _ _) as [o|]; [|done].
  by intros [= ->].
Qed.

(** C5: when [create_order] answers with an order and every stored order
    item belongs to a stored order, each product's stock after the call
    is its stock before minus the quantity ordered of it; cancelling that
    order at once succeeds and puts every stock, and the whole product
    table, back to what it was before the order. *)
Theorem create_then_cancel_restores_stock (user_id : Z) (db : DB.t)
    (order : Order.t) :
  order_items_have_order db →
  answer (create_order user_id db) = Ok order →
  let created := stored db (create_order user_id db) in
  let cancelled :=
    stored created (cancel_order (Order.id order) user_id created) in
  answer (cancel_order (Order.id order) user_id created) = Ok order
  ∧ (∀ product_id,
       stock_of product_id created
       = (fun s => s - basket_quantity product_id (basket_of user_id db))
           <$> stock_of product_id db)
  ∧ (∀ product_id, stock_of product_id cancelled = stock_of product_id db)
  ∧ DB.products cancelled = DB.products db.
Proof.
  intros Hfk Hok created cancelled.
  destruct (create_order_Ok_inv _ _ _ Hok)
    as (total & db2 & _ & _ & Horder & Hfulfil & Hrun).
  assert (created = db2) as Hcreated
    by (unfold created, stored; by rewrite Hrun).
  destruct (fulfil_basket_inv _ _ _ _ Hfulfil)
    as (_ & Horders & _ & (new_items & Hitems & Hmade) & Hps).
  simpl in Horders, Hitems, Hps.
  destruct (created_order_items user_id db db2 order new_items)
    as [Hfind Hnew]; [done|by subst order|by subst order|done|done| |].
  { eapply Forall2_Forall_l; [exact Hmade|].
    apply Forall_true. by intros b i (? & _). }
  assert (cancel_order (Order.id order) user_id created
          = (Ok order,
             [DB.set_products
                (fold_left restore_item new_items (DB.products db2)) db2]))
    as Hcancel.
  { rewrite Hcreated. unfold cancel_order. by rewrite Hfind, Hnew. }
  assert (DB.products cancelled = DB.products db) as Hproducts.
  { unfold cancelled, stored. rewrite Hcancel. simpl. apply map_eq.
    intros product_id. rewrite restore_items_lookup, Hps.
    rewrite (made_from_quantity _ _ _ _ Hmade).
    destruct (DB.products db !! product_id) as [[]|]; simpl; [|done].
    unfold Product.set_stock. simpl. do 2 f_equal. lia. }
  split; [by rewrite Hcancel|]. split; [|split; [|done]].
  - intros product_id. unfold stock_of. rewrite Hcreated, Hps.
    by destruct (DB.products db !! product_id).
  - intros product_id. unfold stock_of. by rewrite Hproducts.
Qed.

Lemma order_quantity_items_of_order (order_id product_id : Z) (db : DB.t) :
  order_quantity product_id (items_of_order order_id db)
  = ordered_quantity order_id product_id db.
Proof.
  unfold items_of_order, ordered_quantity.
  induction (DB.order_items db) as [|item rest IH]; [done|].
  rewrite filter_cons. simpl.
  destruct (decide (OrderItem.order_id item = order_id)) as [Ho|Ho]; simpl.
  - rewrite IH.
    destruct (decide (OrderItem.product_id item = product_id)) as [Hp|Hp];
      (destruct (decide (_ ∧ _)) as [[? ?]|Hn]; [done|]); try done.
    by destruct Hn.
  - rewrite IH. by destruct (decide (_ ∧ _)) as [[? ?]|].
Qed.

(** C6: an order that has been cancelled can be cancelled again.  The
    first call raises every product's stock by the quantity the order
    items table holds of it for that order, and leaves the orders and the
    order items as they are: the order is still stored, unmarked.  So the
    second call is not refused, and when it answers it answers with the
    same order and every product's stock is then raised by twice that
    quantity. *)
Theorem cancel_order_twice (order_id user_id : Z) (db : DB.t)
    (order : Order.t) :
  answer (cancel_order order_id user_id db) = Ok order →
  let once := stored db (cancel_order order_id user_id db) in
  let twice := stored once (cancel_order order_id user_id once) in
  DB.orders once = DB.orders db
  ∧ DB.order_items once = DB.order_items db
  ∧ order ∈ DB.orders once
  ∧ (∀ status_code detail,
       answer (cancel_order order_id user_id once)
       ≠ Raise (HTTPException status_code detail))
  ∧ (∀ product_id,
       stock_of product_id once
       = (fun s => s + ordered_quantity order_id product_id db)
           <$> stock_of product_id db)
  ∧ ∀ again,
      answer (cancel_order order_id user_id once) = Ok again →
      again = order
      ∧ ∀ product_id,
          stock_of product_id twice
          = (fun s => s + 2 * ordered_quantity order_id product_id db)
              <$> stock_of product_id db.
Proof.
  intros Hok once twice.
  destruct (cancel_order_Ok_inv _ _ _ _ Hok) as [Hfind Hrun].
  assert (once
          = DB.set_products
              (fold_left restore_item (items_of_order order_id db)
                 (DB.products db)) db) as Honce
    by (unfold once, stored; by rewrite Hrun).
  assert (cancel_order order_id user_id once
          = (Ok order,
             [DB.set_products
                (fold_left restore_item (items_of_order order_id db)
                   (DB.products once)) once])) as Hagain.
  { rewrite Honce. unfold cancel_order, items_of_order. simpl.
    by rewrite Hfind. }
  split; [by rewrite Honce|]. split; [by rewrite Honce|].
  split; [rewrite Honce; simpl; apply list_elem_of_In;
          by apply find_some in Hfind as [? _]|].
  split; [intros status_code detail; by rewrite Hagain|]. split.
  - intros product_id. unfold stock_of. rewrite Honce. simpl.
    rewrite restore_items_lookup, order_quantity_items_of_order.
    by destruct (DB.products db !! product_id).
  - intros again. rewrite Hagain. intros [= <-]. split; [done|].
    intros product_id. unfold stock_of, twice, stored. rewrite Hagain. simpl.
    rewrite restore_items_lookup. rewrite Honce. simpl.
    rewrite restore_items_lookup, order_quantity_items_of_order.
    destruct (DB.products db !! product_id) as [[]|]; simpl; [|done].
    f_equal; lia.
Qed.

Lemma create_then_cancel_restores_stock_witness :
  let order := Order.mk 2 1 3998 in
  let created := stored Sample.returning (create_order 1 Sample.returning) in
  let cancelled := stored created (cancel_order (Order.id order) 1 created) in
  answer (cancel_order (Order.id order) 1 created) = Ok order
  ∧ (∀ product_id,
       stock_of product_id created
       = (fun s => s - basket_quantity product_id (basket_of 1 Sample.returning))
           <$> stock_of product_id Sample.returning)
  ∧ (∀ product_id,
       stock_of product_id cancelled = stock_of product_id Sample.returning)
  ∧ DB.products cancelled = DB.products Sample.returning.
Proof.
  apply (create_then_cancel_restores_stock 1 Sample.returning
           (Order.mk 2 1 3998)).
  - apply (bool_decide_unpack _). by vm_compute.
  - by vm_compute.
Defined.

(** Two widgets left, two ordered, the order cancelled: 2, 0, 2. *)
Example create_then_cancel_widgets :
  let created := stored Sample.returning (create_order 1 Sample.returning) in
  stock_of 1 Sample.returning = Some 2
  ∧ stock_of 1 created = Some 0
  ∧ stock_of 1 (stored created (cancel_order 2 1 created)) = Some 2.
Proof. by vm_compute. Qed.

Lemma cancel_order_twice_witness :
  let db := stored Sample.shop (create_order 1 Sample.shop) in
  let order := Order.mk 1 1 5997 in
  let once := stored db (cancel_order 1 1 db) in
  let twice := stored once (cancel_order 1 1 once) in
  DB.orders once = DB.orders db
  ∧ DB.order_items once = DB.order_items db
  ∧ order ∈ DB.orders once
  ∧ (∀ status_code detail,
       answer (cancel_order 1 1 once)
       ≠ Raise (HTTPException status_code detail))
  ∧ (∀ product_id,
       stock_of product_id once
       = (fun s => s + ordered_quantity 1 product_id db)
           <$> stock_of product_id db)
  ∧ ∀ again,
      answer (cancel_order 1 1 once) = Ok again →
      again = order
      ∧ ∀ product_id,
          stock_of product_id twice
          = (fun s => s + 2 * ordered_quantity 1 product_id db)
              <$> stock_of product_id db.
Proof.
  apply (cancel_order_twice 1 1
           (stored Sample.shop (create_order 1 Sample.shop))
           (Order.mk 1 1 5997)).
  by vm_compute.
Defined.

(** Without a refusal by the store the second call answers. *)
Lemma cancel_order_again_answers (order_id user_id : Z) (db : DB.t)
    (order : Order.t) :
  answer (cancel_order order_id user_id db) = Ok order →
  answer (cancel_order order_id user_id
            (stored db (cancel_order order_id user_id db))) = Ok order.
Proof.
  intros Hok. destruct (cancel_order_Ok_inv _ _ _ _ Hok) as [Hfind Hrun].
  unfold stored. rewrite Hrun. simpl. unfold cancel_order. simpl.
  by rewrite Hfind.
Qed.

(** Five widgets, three ordered, cancelled twice: eight in stock. *)
Example cancel_order_twice_widgets :
  let db := stored Sample.shop (create_order 1 Sample.shop) in
  stock_of 1 Sample.shop = Some 5
  ∧ ordered_quantity 1 1 db = 3
  ∧ stock_of 1 db = Some 2
  ∧ answer (cancel_order 1 1 (stored db (cancel_order 1 1 db)))
    = Ok (Order.mk 1 1 5997)
  ∧ stock_of 1 (run_ops [CancelOrder 1 1; CancelOrder 1 1] db) = Some 8.
Proof. by vm_compute. Qed.

(** ** Stock never below zero *)

Lemma basket_of_NoDup (user_id : Z) (db : DB.t) :
  basket_rows_unique db →
  NoDup (BasketItem.product_id <$> basket_of user_id db).
Proof.
  unfold basket_rows_unique, basket_of.
  induction (DB.basket_items db) as [|b bs IH]; intros Hnd.
  - constructor.
  - rewrite fmap_cons in Hnd. apply NoDup_cons in Hnd as [Hb Hbs].
    rewrite filter_cons. destruct (decide (BasketItem.user_id b = user_id))
      as [Hu|Hu]; [|by apply IH].
    rewrite fmap_cons. apply NoDup_cons. split; [|by apply IH].
    intros Hin. apply Hb.
    apply list_elem_of_fmap in Hin as (b' & Hp & Hb').
    apply list_elem_of_filter in Hb' as [Hu' Hb'].
    apply list_elem_of_fmap. exists b'. split; [|done]. congruence.
Qed.

Lemma basket_quantity_absent (product_id : Z) (items : list BasketItem.t) :
  product_id ∉ BasketItem.product_id <$> items →
  basket_quantity product_id items = 0.
Proof.
  induction items as [|item rest IH]; intros Hnot; [done|]. simpl.
  rewrite fmap_cons, not_elem_of_cons in Hnot. destruct Hnot as [Hne Hrest].
  destruct (decide (BasketItem.product_id item = product_id)); [done|].
  by apply IH.
Qed.

(** What the pricing loop has checked bounds what the second loop takes
    from a product, provided no product occurs twice in the basket. *)
Lemma basket_quantity_le_stock (products : gmap Z Product.t)
    (items : list BasketItem.t) (product_id : Z) (p : Product.t) :
  NoDup (BasketItem.product_id <$> items) →
  Forall (fun item =>
            ∃ product, products !! BasketItem.product_id item = Some product
                       ∧ BasketItem.quantity item ≤ Product.stock product)
    items →
  products !! product_id = Some p →
  0 ≤ Product.stock p →
  basket_quantity product_id items ≤ Product.stock p.
Proof.
  intros Hnd Hall Hp Hstock.
  induction items as [|item rest IH]; [done|]. simpl.
  rewrite fmap_cons in Hnd. apply NoDup_cons in Hnd as [Hitem Hrest].
  apply Forall_cons in Hall as [(product & Hproduct & Hq) Hall].
  destruct (decide (BasketItem.product_id item = product_id)) as [Heq|Hne].
  - rewrite Heq in Hitem, Hproduct.
    rewrite (basket_quantity_absent _ _ Hitem).
    assert (product = p) as -> by congruence. lia.
  - by apply IH.
Qed.

Lemma order_quantity_nonneg (product_id : Z) (items : list OrderItem.t) :
  Forall (fun i => 0 ≤ OrderItem.quantity i) items →
  0 ≤ order_quantity product_id items.
Proof.
  induction 1 as [|i rest Hi _ IH]; [done|]. simpl.
  destruct (decide (OrderItem.product_id i = product_id)); lia.
Qed.

Lemma cancel_order_sound (order_id user_id : Z) (db : DB.t) :
  sound db → sound (stored db (cancel_order order_id user_id db)).
Proof.
  intros (Hstock & [Hbq Hoq] & Huniq). unfold cancel_order, stored.
  destruct (List.find _ _) as [order|]; [|done]. simpl.
  split; [|done].
  intros product_id p2. simpl. rewrite restore_items_lookup.
  destruct (DB.products db !! product_id) as [p|] eqn:Hp; [|done].
  simpl. intros [= <-]. simpl.
  specialize (Hstock product_id p Hp). simpl in Hstock.
  assert (0 ≤ order_quantity product_id (items_of_order order_id db)); [|lia].
  apply order_quantity_nonneg. rewrite Forall_forall in Hoq |- *.
  intros i Hi. apply Hoq.
  unfold items_of_order in Hi. by apply list_elem_of_filter in Hi as [_ ?].
Qed.

Lemma create_order_sound (user_id : Z) (db : DB.t) :
  sound db → sound (stored db (create_order user_id db)).
Proof.
  intros (Hstock & [Hbq Hoq] & Huniq).
  pose proof (basket_of_NoDup user_id db Huniq) as Hnd.
  unfold create_order, stored, insert_order.
  destruct (basket_of user_id db) as [|item rest] eqn:Hbasket; [done|].
  rewrite <- Hbasket in *. clear item rest Hbasket.
  destruct (price_basket _ _ _) as [total|e] eqn:Hprice; [|done].
  apply price_basket_Ok_inv in Hprice.
  destruct (fulfil_basket _ _ _) as [db2|e] eqn:Hfulfil; [|done].
  apply fulfil_basket_inv in Hfulfil
    as (_ & _ & Hb & (new_items & Hi & Hmade) & Hps).
  simpl in Hb, Hi, Hps |- *. split; [|split; [split|]].
  - intros product_id p2. simpl. rewrite Hps.
    destruct (DB.products db !! product_id) as [p|] eqn:Hp; [|done].
    simpl. intros [= <-]. simpl.
    specialize (Hstock product_id p Hp). simpl in Hstock.
    pose proof (basket_quantity_le_stock _ _ _ _ Hnd Hprice Hp Hstock). lia.
  - rewrite Hb. rewrite Forall_forall in Hbq |- *. intros b Hin.
    apply Hbq. by apply list_elem_of_filter in Hin as [_ ?].
  - rewrite Hi. apply Forall_app. split; [done|].
    assert (Forall (fun b => 0 ≤ BasketItem.quantity b) (basket_of user_id db))
      as Hbasket.
    { rewrite Forall_forall in Hbq |- *. intros b Hin. apply Hbq.
      unfold basket_of in Hin. by apply list_elem_of_filter in Hin as [_ ?]. }
    clear -Hmade Hbasket.
    induction Hmade as [|i b ois bs (_ & _ & Hq) _ IH]; [done|].
    apply Forall_cons in Hbasket as [Hb0 Hbs].
    constructor; [lia | by apply IH].
  - unfold basket_rows_unique. rewrite Hb.
    eapply sublist_NoDup; [exact Huniq|].
    apply fmap_sublist, sublist_filter.
Qed.

Lemma run_ops_sound (ops : list OrderOp) (db : DB.t) :
  sound db → sound (run_ops ops db).
Proof.
  revert db. induction ops as [|op ops IH]; intros db Hsound; [done|].
  simpl. apply IH. destruct op as [user_id|order_id user_id]; simpl.
  - by apply create_order_sound.
  - by apply cancel_order_sound.
Qed.

(** C3, as stated, fails: the product has stock 0 and user 1 added -1 of
    it to the basket.  Ordering raises the stock to 1, cancelling the
    order brings it back to 0, cancelling it again leaves -1. *)
Lemma stock_goes_negative :
  Sample.refund
  = DB.mk [User.mk 1 "ann" "ann@example.com"] {[ 1 := Sample.sold_out ]}
      [BasketItem.mk 1 1 1 (-1)] [] []
  ∧ stocks_nonneg Sample.refund
  ∧ stock_of 1 (run_ops [CreateOrder 1] Sample.refund) = Some 1
  ∧ stock_of 1 (run_ops [CreateOrder 1; CancelOrder 1 1] Sample.refund) = Some 0
  ∧ stock_of 1 (run_ops [CreateOrder 1; CancelOrder 1 1; CancelOrder 1 1]
                  Sample.refund) = Some (-1)
  ∧ ¬ stocks_nonneg (run_ops [CreateOrder 1; CancelOrder 1 1; CancelOrder 1 1]
                       Sample.refund).
Proof.
  assert (Sample.refund
          = DB.mk [User.mk 1 "ann" "ann@example.com"] {[ 1 := Sample.sold_out ]}
              [BasketItem.mk 1 1 1 (-1)] [] []) as Hstate by (by vm_compute).
  split; [done|]. split.
  { rewrite Hstate. unfold stocks_nonneg. simpl.
    apply map_Forall_singleton. simpl. lia. }
  split; [by vm_compute|]. split; [by vm_compute|]. split; [by vm_compute|].
  intros Hnonneg.
  specialize (Hnonneg 1 (Product.mk "sold out" None 500 (-1))).
  simpl in Hnonneg. assert (0 ≤ -1); [|lia]. apply Hnonneg. by vm_compute.
Qed.

(** With two basket rows for one product each row passes the stock
    check on its own, and the stock of 5 ends at -1. *)
Example stock_goes_negative_duplicate_rows :
  ¬ basket_rows_unique Sample.doubled
  ∧ stock_of 1 Sample.doubled = Some 5
  ∧ stock_of 1 (run_ops [CreateOrder 1] Sample.doubled) = Some (-1).
Proof.
  split; [|by vm_compute].
  intros Hnd. apply (bool_decide_pack _) in Hnd. by vm_compute in Hnd.
Qed.

(** C3, amended: when all stocks are non-negative, all quantities of
    basket rows and of order items are non-negative, and no user has two
    basket rows for one product, then every stock is still non-negative
    after any finite sequence of [create_order] and [cancel_order]. *)
Theorem stock_stays_nonneg (ops : list OrderOp) (db : DB.t) :
  stocks_nonneg db →
  quantities_nonneg db →
  basket_rows_unique db →
  stocks_nonneg (run_ops ops db).
Proof.
  intros Hstock Hq Huniq.
  by destruct (run_ops_sound ops db) as [? _].
Qed.

Lemma stock_stays_nonneg_witness :
  stocks_nonneg
    (run_ops [CreateOrder 1; CreateOrder 2; CancelOrder 1 1; CancelOrder 1 1]
       Sample.contended).
Proof.
  apply stock_stays_nonneg.
  - apply map_Forall_singleton. simpl. lia.
  - split; repeat constructor; simpl; lia.
  - apply (bool_decide_unpack _). by vm_compute.
Defined.

(** The same operations on the contended sample: the second order is
    refused and the stock goes 1, 0, 0, 1, 2. *)
Example stock_stays_nonneg_contended :
  stock_of 1
    (run_ops [CreateOrder 1; CreateOrder 2; CancelOrder 1 1; CancelOrder 1 1]
       Sample.contended) = Some 2.
Proof. by vm_compute. Qed.

(** * Further properties of the handlers *)

(** ** More helper lemmas *)

Lemma NoDup_fmap_eq {A B} (f : A → B) (l : list A) (x y : A) :
  NoDup (f <$> l) → x ∈ l → y ∈ l → f x = f y → x = y.
Proof.
  induction l as [|z l IH]; intros Hnd Hx Hy Hf.
  - by apply elem_of_nil in Hx.
  - rewrite fmap_cons in Hnd. apply NoDup_cons in Hnd as [Hz Hnd].
    apply elem_of_cons in Hx as [->|Hx]; apply elem_of_cons in Hy as [->|Hy].
    + done.
    + destruct Hz. rewrite Hf. by apply list_elem_of_fmap_2.
    + destruct Hz. rewrite <- Hf. by apply list_elem_of_fmap_2.
    + by apply IH.
Qed.

Lemma filter_ext_elem {A} (P Q : A → Prop) `{!∀ x, Decision (P x)}
    `{!∀ x, Decision (Q x)} (l : list A) :
  (∀ x, x ∈ l → P x ↔ Q x) → filter P l = filter Q l.
Proof.
  induction l as [|x l IH]; intros Hext; [done|].
  rewrite !filter_cons.
  rewrite IH by (intros y Hy; apply Hext; by right).
  destruct (decide (P x)) as [HP|HP], (decide (Q x)) as [HQ|HQ];
    try done; destruct (Hext x); try (by left); tauto.
Qed.

Lemma price_basket_Raise_inv (products : gmap Z Product.t)
    (basket_items : list BasketItem.t) (total0 : Float.t) (e : Exn) :
  price_basket products basket_items total0 = Raise e →
  ∃ status_code detail,
    e = HTTPException status_code detail
    ∧ (status_code = 404 ∨ status_code = 400).
Proof.
  revert total0. induction basket_items as [|item rest IH]; intros total0 Hr.
  - done.
  - simpl in Hr.
    destruct (products !! BasketItem.product_id item) as [product|].
    + destruct (Product.stock product <? BasketItem.quantity item).
      * injection Hr as <-. do 2 eexists. split; [done|]. by right.
      * by eapply IH.
    + injection Hr as <-. do 2 eexists. split; [done|]. by left.
Qed.

(** A basket that passes the checks is fulfilled. *)
Lemma create_order_Ok (user_id : Z) (db : DB.t) :
  basket_of user_id db ≠ [] →
  Forall (fun item =>
            ∃ product,
              DB.products db !! BasketItem.product_id item = Some product
              ∧ BasketItem.quantity item ≤ Product.stock product)
    (basket_of user_id db) →
  ∃ order, answer (create_order user_id db) = Ok order.
Proof.
  intros Hne Hall. unfold create_order, insert_order.
  destruct (price_basket_Ok _ _ (Float.of_int 0) Hall) as [total Hprice].
  destruct (fulfil_basket_Ok
              (next_id (Order.id <$> DB.orders db)) (basket_of user_id db)
              (DB.set_orders
                 (DB.orders db
                    ++ [Order.mk (next_id (Order.id <$> DB.orders db))
                          user_id (Float.to_decimal total)]) db))
    as [db2 Hfulfil].
  { eapply Forall_impl; [exact Hall|]. intros item (product & Hp & _).
    simpl. by eexists. }
  destruct (basket_of user_id db) as [|item rest] eqn:Hbasket; [done|].
  rewrite Hprice. simpl in Hfulfil |- *. rewrite Hfulfil. by eexists.
Qed.

(** The second loop freezes each basket row with the price its product
    has in the table. *)
Lemma fulfil_basket_frozen (order_id : Z) (basket_items : list BasketItem.t)
    (db db2 : DB.t) :
  fulfil_basket order_id basket_items db = Ok db2 →
  ∃ new_items,
    DB.order_items db2 = DB.order_items db ++ new_items
    ∧ Forall2 (frozen_from order_id (DB.products db)) new_items basket_items.
Proof.
  revert db. induction basket_items as [|item rest IH]; intros db Hok.
  - simpl in Hok. injection Hok as <-. exists []. by rewrite app_nil_r.
  - simpl in Hok.
    destruct (DB.products db !! BasketItem.product_id item) as [product|]
      eqn:Hp; [|done].
    apply IH in Hok as (new_items & Hi & Hfrozen). simpl in Hi.
    eexists (_ :: new_items). rewrite Hi, <- app_assoc. split; [done|].
    constructor.
    + split; [done|]. simpl. by rewrite Hp.
    + eapply Forall2_impl; [exact Hfrozen|].
      intros i b [Hmade Hprice]. split; [done|]. rewrite Hprice. simpl.
      destruct (decide (BasketItem.product_id item = BasketItem.product_id b))
        as [Heq|Hne].
      * by rewrite <- Heq, lookup_insert_eq, Hp.
      * by rewrite lookup_insert_ne.
Qed.

(** ** [create_order]: when it succeeds and what it leaves *)

(** A [create_order] that raises has raised an [HTTPException] with
    status 400 or 404 before its first commit. *)
Lemma create_order_Raise_inv (user_id : Z) (db : DB.t) (e : Exn) :
  answer (create_order user_id db) = Raise e →
  (∃ status_code detail,
     e = HTTPException status_code detail
     ∧ (status_code = 404 ∨ status_code = 400))
  ∧ commits (create_order user_id db) = [].
Proof.
  unfold create_order, insert_order.
  destruct (basket_of user_id db) as [|item rest] eqn:Hbasket.
  { intros [= <-]. split; [|done]. do 2 eexists. split; [done|]. by right. }
  rewrite <- Hbasket. clear item rest Hbasket.
  destruct (price_basket _ _ _) as [total|e'] eqn:Hprice.
  - destruct (fulfil_basket_Ok
                (next_id (Order.id <$> DB.orders db)) (basket_of user_id db)
                (DB.set_orders
                   (DB.orders db
                      ++ [Order.mk (next_id (Order.id <$> DB.orders db))
                            user_id (Float.to_decimal total)]) db))
      as [db2 Hfulfil].
    { apply price_basket_Ok_inv in Hprice.
      eapply Forall_impl; [exact Hprice|]. intros item (product & Hp & _).
      simpl. by eexists. }
    simpl in Hfulfil |- *. by rewrite Hfulfil.
  - intros [= <-]. split; [|done]. by eapply price_basket_Raise_inv.
Qed.

(** X1: [create_order] is refused with an [HTTPException] exactly when
    the user has no basket row or some row fails the check of its
    product and stock; and when it answers with an order, every row has
    passed that check, the order belongs to the user, and its identifier
    is above those of all orders stored before. *)
Theorem create_order_refused_iff (user_id : Z) (db : DB.t) :
  let passes :=
    basket_of user_id db ≠ []
    ∧ Forall (fun item =>
                ∃ product,
                  DB.products db !! BasketItem.product_id item = Some product
                  ∧ BasketItem.quantity item ≤ Product.stock product)
        (basket_of user_id db) in
  ((∃ status_code detail,
      answer (create_order user_id db)
      = Raise (HTTPException status_code detail))
   ↔ ¬ passes)
  ∧ ∀ order,
      answer (create_order user_id db) = Ok order →
      passes
      ∧ Order.user_id order = user_id
      ∧ Forall (fun o => Order.id o < Order.id order) (DB.orders db).
Proof.
  intros passes.
  assert (∀ order, answer (create_order user_id db) = Ok order → passes)
    as Honly.
  { intros order Hok.
    destruct (create_order_Ok_inv _ _ _ Hok) as (total & _ & Hne & Hp & _).
    split; [done|]. by eapply price_basket_Ok_inv. }
  split; [split|].
  - intros (status_code & detail & Hraise) [Hne Hall].
    destruct (create_order_Ok user_id db Hne Hall) as [order Hok].
    by rewrite Hok in Hraise.
  - intros Hnot. destruct (answer (create_order user_id db)) as [order|e]
      eqn:Hanswer.
    + destruct Hnot. by eapply Honly.
    + destruct (create_order_Raise_inv _ _ _ Hanswer)
        as [(status_code & detail & -> & _) _].
      by exists status_code, detail.
  - intros order Hok. split; [by eapply Honly|].
    destruct (create_order_Ok_inv _ _ _ Hok) as (total & _ & _ & _ & -> & _).
    split; [done|]. simpl. apply Forall_forall. intros o Ho.
    apply next_id_above. by apply list_elem_of_fmap_2.
Qed.

(** X2: an [HTTPException] of [create_order] has status 400 or 404 and is
    raised before the first commit: nothing is committed and the stored
    state is the one the request started from. *)
Theorem create_order_refusal_commits_nothing (user_id : Z) (db : DB.t)
    (status_code : Z) (detail : string) :
  answer (create_order user_id db) = Raise (HTTPException status_code detail) →
  (status_code = 404 ∨ status_code = 400)
  ∧ commits (create_order user_id db) = []
  ∧ stored db (create_order user_id db) = db.
Proof.
  intros Hraise.
  destruct (create_order_Raise_inv _ _ _ Hraise)
    as [(status_code' & detail' & [= -> ->] & Hstatus) Hcommits].
  split; [done|]. split; [done|]. unfold stored. by rewrite Hcommits.
Qed.

Lemma create_order_refusal_commits_nothing_witness :
  let db := stored Sample.contended (create_order 1 Sample.contended) in
  (400 = 404 ∨ 400 = 400)
  ∧ commits (create_order 2 db) = []
  ∧ stored db (create_order 2 db) = db.
Proof.
  apply (create_order_refusal_commits_nothing 2
           (stored Sample.contended (create_order 1 Sample.contended))
           400 "Not enough stock for product last one").
  by vm_compute.
Defined.

(** X3: after a [create_order] that answers with an order, on a table
    whose rows have distinct identifiers, the stored basket rows are the
    old ones without those of the user: the user's basket is empty and
    every other basket is as it was. *)
Theorem create_order_drains_basket (user_id : Z) (db : DB.t)
    (order : Order.t) :
  basket_ids_unique db →
  answer (create_order user_id db) = Ok order →
  let created := stored db (create_order user_id db) in
  DB.basket_items created
  = filter (fun b => BasketItem.user_id b ≠ user_id) (DB.basket_items db)
  ∧ basket_of user_id created = []
  ∧ ∀ other, other ≠ user_id → basket_of other created = basket_of other db.
Proof.
  intros Hids Hok created.
  destruct (create_order_Ok_inv _ _ _ Hok)
    as (total & db2 & _ & _ & _ & Hfulfil & Hrun).
  assert (created = db2) as ->
    by (unfold created, stored; by rewrite Hrun).
  destruct (fulfil_basket_inv _ _ _ _ Hfulfil) as (_ & _ & Hb & _).
  simpl in Hb.
  assert (DB.basket_items db2
          = filter (fun b => BasketItem.user_id b ≠ user_id)
              (DB.basket_items db)) as Hrows.
  { rewrite Hb. apply filter_ext_elem. intros b Hin. unfold basket_of. split.
    - intros Hnot Hu. apply Hnot. apply list_elem_of_fmap_2.
      by apply list_elem_of_filter.
    - intros Hu Hid. apply list_elem_of_fmap in Hid as (b' & Hid & Hb').
      apply list_elem_of_filter in Hb' as [Hu' Hb'].
      assert (b = b') as -> by (by eapply (NoDup_fmap_eq BasketItem.id)).
      done. }
  split; [done|]. unfold basket_of. rewrite Hrows. split.
  - rewrite list_filter_filter. apply filter_none. by intros b _ [? ?].
  - intros other Hother. rewrite list_filter_filter.
    apply list_filter_iff. intros b. split; [tauto|].
    intros Hu. split; [done|]. congruence.
Qed.

Lemma create_order_drains_basket_witness :
  let created := stored Sample.contended (create_order 1 Sample.contended) in
  DB.basket_items created
  = filter (fun b => BasketItem.user_id b ≠ 1) (DB.basket_items Sample.contended)
  ∧ basket_of 1 created = []
  ∧ ∀ other, other ≠ 1 → basket_of other created = basket_of other Sample.contended.
Proof.
  apply (create_order_drains_basket 1 Sample.contended
           (Order.mk 1 1 500)).
  - apply (bool_decide_unpack _). by vm_compute.
  - by vm_compute.
Defined.

(** X4: a [create_order] that answers with an order appends one order
    item per basket row of the user, in basket order; each carries the
    identifier of the order, the product and the quantity of its row,
    and as price the price the product had when the request came in. *)
Theorem create_order_freezes_prices (user_id : Z) (db : DB.t)
    (order : Order.t) :
  answer (create_order user_id db) = Ok order →
  ∃ new_items,
    DB.order_items (stored db (create_order user_id db))
    = DB.order_items db ++ new_items
    ∧ Forall2 (frozen_from (Order.id order) (DB.products db)) new_items
        (basket_of user_id db).
Proof.
  intros Hok.
  destruct (create_order_Ok_inv _ _ _ Hok)
    as (total & db2 & _ & _ & _ & Hfulfil & Hrun).
  unfold stored. rewrite Hrun. simpl.
  by apply fulfil_basket_frozen in Hfulfil.
Qed.

Lemma create_order_freezes_prices_witness :
  ∃ new_items,
    DB.order_items (stored Sample.shop (create_order 1 Sample.shop))
    = DB.order_items Sample.shop ++ new_items
    ∧ Forall2
        (frozen_from (Order.id (Order.mk 1 1 5997))
           (DB.products Sample.shop))
        new_items (basket_of 1 Sample.shop).
Proof.
  apply (create_order_freezes_prices 1 Sample.shop
           (Order.mk 1 1 5997)).
  by vm_compute.
Defined.

(** ** Basket endpoints *)

Lemma fmap_ext_elem {A B} (f g : A → B) (l : list A) :
  (∀ x, x ∈ l → f x = g x) → f <$> l = g <$> l.
Proof.
  induction l as [|x l IH]; intros Hext; [done|].
  rewrite !fmap_cons, (Hext x) by left. f_equal. apply IH.
  intros y Hy. apply Hext. by right.
Qed.

Lemma find_Some_elem {A} (f : A → bool) (l : list A) (x : A) :
  List.find f l = Some x → x ∈ l ∧ f x = true.
Proof.
  intros Hfind. apply find_some in Hfind as [Hin Hf].
  split; [by apply list_elem_of_In | done].
Qed.

(** Writing back a row that differs from a stored one in its quantity
    only leaves every column but the quantity as it was. *)
Lemma update_basket_row_fmap {B} (f : BasketItem.t → B) (n : Z)
    (old : BasketItem.t) (rows : list BasketItem.t) :
  NoDup (BasketItem.id <$> rows) →
  old ∈ rows →
  (∀ b, f (BasketItem.set_quantity n b) = f b) →
  f <$> update_basket_row (BasketItem.set_quantity n old) rows = f <$> rows.
Proof.
  intros Hnd Hold Hf. unfold update_basket_row.
  rewrite <- list_fmap_compose. apply fmap_ext_elem. intros r Hr. simpl.
  destruct (Z.eqb_spec (BasketItem.id r) (BasketItem.id old)) as [Heq|]; [|done].
  rewrite (NoDup_fmap_eq BasketItem.id rows r old Hnd Hr Hold Heq). apply Hf.
Qed.

Lemma elem_of_update_basket_row (row b : BasketItem.t)
    (rows : list BasketItem.t) :
  b ∈ update_basket_row row rows
  ↔ (b = row ∧ ∃ r, r ∈ rows ∧ BasketItem.id r = BasketItem.id row)
    ∨ (b ∈ rows ∧ BasketItem.id b ≠ BasketItem.id row).
Proof.
  unfold update_basket_row. rewrite list_elem_of_fmap. split.
  - intros (r & -> & Hr).
    destruct (Z.eqb_spec (BasketItem.id r) (BasketItem.id row)); [left|right].
    + split; [done|]. by exists r.
    + done.
  - intros [(-> & r & Hr & Hid)|[Hb Hne]].
    + exists r. split; [|done]. by rewrite Hid, Z.eqb_refl.
    + exists b. split; [|done].
      by destruct (Z.eqb_spec (BasketItem.id b) (BasketItem.id row)).
Qed.

(** X5: [add_to_basket] is refused with an [HTTPException] exactly when
    the product is missing or its stock is below the quantity being
    added, whatever the basket already holds and whatever the sign of
    the quantity.  A row it answers with is a row of the user for the
    product, and the check had passed.  Whenever it raises, nothing is
    committed. *)
Theorem add_to_basket_refused_iff (product_id quantity user_id : Z)
    (db : DB.t) :
  ((∃ status_code detail,
      answer (add_to_basket product_id quantity user_id db)
      = Raise (HTTPException status_code detail))
   ↔ DB.products db !! product_id = None
     ∨ ∃ product, DB.products db !! product_id = Some product
                  ∧ Product.stock product < quantity)
  ∧ (∀ row,
       answer (add_to_basket product_id quantity user_id db) = Ok row →
       BasketItem.user_id row = user_id
       ∧ BasketItem.product_id row = product_id
       ∧ ∃ product, DB.products db !! product_id = Some product
                    ∧ quantity ≤ Product.stock product)
  ∧ ∀ e, answer (add_to_basket product_id quantity user_id db) = Raise e →
         commits (add_to_basket product_id quantity user_id db) = []
         ∧ stored db (add_to_basket product_id quantity user_id db) = db.
Proof.
  unfold add_to_basket, stored.
  destruct (DB.products db !! product_id) as [product|].
  - destruct (Z.ltb_spec (Product.stock product) quantity).
    + split; [|done]. split; [|by do 2 eexists].
      intros _. right. by exists product.
    + destruct (List.find _ _) as [old|] eqn:Hfind;
        (split; [|split; [|done]]).
      * split; [by intros (? & ? & ?)|].
        intros [?|(p & [= <-] & ?)]; [done|lia].
      * apply find_Some_elem in Hfind as [_ Hmatch].
        apply andb_true_iff in Hmatch as [Hu Hp]. apply Z.eqb_eq in Hu, Hp.
        intros row [= <-]. simpl. repeat split; try done. by exists product.
      * split; [by intros (? & ? & ?)|].
        intros [?|(p & [= <-] & ?)]; [done|lia].
      * intros row [= <-]. simpl. repeat split. by exists product.
  - split; [|done]. split; [|by do 2 eexists]. intros _. by left.
Qed.

(** X6: when the user has no row for the product and [add_to_basket]
    answers with a row, that row has the user, the product and the
    quantity of the request and an identifier above all stored ones, and
    it is appended to the basket rows, the others staying as they are. *)
Theorem add_to_basket_new_row (product_id quantity user_id : Z) (db : DB.t)
    (row : BasketItem.t) :
  (∀ b, b ∈ DB.basket_items db →
        BasketItem.user_id b = user_id → BasketItem.product_id b ≠ product_id) →
  answer (add_to_basket product_id quantity user_id db) = Ok row →
  BasketItem.user_id row = user_id
  ∧ BasketItem.product_id row = product_id
  ∧ BasketItem.quantity row = quantity
  ∧ Forall (fun b => BasketItem.id b < BasketItem.id row) (DB.basket_items db)
  ∧ DB.basket_items (stored db (add_to_basket product_id quantity user_id db))
    = DB.basket_items db ++ [row]
  ∧ basket_of user_id (stored db (add_to_basket product_id quantity user_id db))
    = basket_of user_id db ++ [row].
Proof.
  intros Hnone. unfold add_to_basket, stored, basket_of.
  destruct (DB.products db !! product_id) as [product|]; [|done].
  destruct (Product.stock product <? quantity); [done|].
  assert (List.find
            (fun b => (BasketItem.user_id b =? user_id)
                      && (BasketItem.product_id b =? product_id))
            (DB.basket_items db) = None) as ->.
  { apply find_none_iff. intros b Hb.
    destruct (Z.eqb_spec (BasketItem.user_id b) user_id) as [Hu|]; [|done].
    apply Z.eqb_neq. by apply Hnone. }
  intros [= <-]. simpl. repeat split.
  - apply Forall_forall. intros b Hb. apply next_id_above.
    by apply list_elem_of_fmap_2.
  - rewrite filter_app. f_equal. by rewrite filter_cons_True.
Qed.

Lemma add_to_basket_new_row_witness :
  let db := stored Sample.contended (clear_basket 2 Sample.contended) in
  let row := BasketItem.mk 2 2 1 1 in
  BasketItem.user_id row = 2
  ∧ BasketItem.product_id row = 1
  ∧ BasketItem.quantity row = 1
  ∧ Forall (fun b => BasketItem.id b < BasketItem.id row) (DB.basket_items db)
  ∧ DB.basket_items (stored db (add_to_basket 1 1 2 db))
    = DB.basket_items db ++ [row]
  ∧ basket_of 2 (stored db (add_to_basket 1 1 2 db))
    = basket_of 2 db ++ [row].
Proof.
  apply (add_to_basket_new_row 1 1 2
           (stored Sample.contended (clear_basket 2 Sample.contended))
           (BasketItem.mk 2 2 1 1)).
  - intros b Hb Hu. apply list_elem_of_singleton in Hb. by subst b.
  - by vm_compute.
Defined.

(** X7: adding a product the user does not have yet and then removing
    the row that was answered gives back the state before the two
    requests. *)
Theorem add_then_remove_basket_item (product_id quantity user_id : Z)
    (db : DB.t) (row : BasketItem.t) :
  (∀ b, b ∈ DB.basket_items db →
        BasketItem.user_id b = user_id → BasketItem.product_id b ≠ product_id) →
  answer (add_to_basket product_id quantity user_id db) = Ok row →
  let added := stored db (add_to_basket product_id quantity user_id db) in
  answer (remove_basket_item (BasketItem.id row) user_id added) = Ok tt
  ∧ stored added (remove_basket_item (BasketItem.id row) user_id added) = db.
Proof.
  intros Hnone. unfold add_to_basket, stored.
  destruct (DB.products db !! product_id) as [product|]; [|done].
  destruct (Product.stock product <? quantity); [done|].
  assert (List.find
            (fun b => (BasketItem.user_id b =? user_id)
                      && (BasketItem.product_id b =? product_id))
            (DB.basket_items db) = None) as ->.
  { apply find_none_iff. intros b Hb.
    destruct (Z.eqb_spec (BasketItem.user_id b) user_id) as [Hu|]; [|done].
    apply Z.eqb_neq. by apply Hnone. }
  intros [= <-]. simpl. unfold remove_basket_item. simpl.
  assert (∀ b, b ∈ DB.basket_items db →
               BasketItem.id b ≠ next_id (BasketItem.id <$> DB.basket_items db))
    as Hfresh.
  { intros b Hb.
    assert (BasketItem.id b < next_id (BasketItem.id <$> DB.basket_items db));
      [|lia].
    apply next_id_above. by apply list_elem_of_fmap_2. }
  rewrite find_app_fresh.
  - simpl. split; [done|]. rewrite filter_app, filter_all.
    + rewrite filter_cons_False by (simpl; tauto).
      rewrite filter_nil, app_nil_r. by destruct db.
    + apply Forall_forall. intros b Hb. by apply Hfresh.
  - intros b Hb. apply andb_false_intro1, Z.eqb_neq. by apply Hfresh.
  - simpl. by rewrite !Z.eqb_refl.
Qed.

Lemma add_then_remove_basket_item_witness :
  let added := stored Sample.shop (add_to_basket 1 2 2 Sample.shop) in
  answer (remove_basket_item (BasketItem.id (BasketItem.mk 2 2 1 2)) 2 added)
    = Ok tt
  ∧ stored added
      (remove_basket_item (BasketItem.id (BasketItem.mk 2 2 1 2)) 2 added)
    = Sample.shop.
Proof.
  apply (add_then_remove_basket_item 1 2 2 Sample.shop (BasketItem.mk 2 2 1 2)).
  - intros b Hb Hu. apply list_elem_of_singleton in Hb. by subst b.
  - by vm_compute.
Defined.

(** X8: a basket row can only be changed by its owner.  When no stored
    row has both the given identifier and the given user,
    [update_basket_item] and [remove_basket_item] answer 404
    "Basket item not found", commit nothing and leave the stored state
    as it is. *)
Theorem basket_item_of_another_user (basket_item_id quantity user_id : Z)
    (db : DB.t) :
  (∀ b, b ∈ DB.basket_items db →
        BasketItem.id b = basket_item_id → BasketItem.user_id b ≠ user_id) →
  update_basket_item basket_item_id quantity user_id db
    = (Raise (HTTPException 404 "Basket item not found"), [])
  ∧ remove_basket_item basket_item_id user_id db
    = (Raise (HTTPException 404 "Basket item not found"), [])
  ∧ stored db (update_basket_item basket_item_id quantity user_id db) = db
  ∧ stored db (remove_basket_item basket_item_id user_id db) = db.
Proof.
  intros Hforeign. unfold update_basket_item, remove_basket_item, stored.
  assert (List.find
            (fun b => (BasketItem.id b =? basket_item_id)
                      && (BasketItem.user_id b =? user_id))
            (DB.basket_items db) = None) as ->; [|done].
  apply find_none_iff. intros b Hb.
  destruct (Z.eqb_spec (BasketItem.id b) basket_item_id) as [Hid|]; [|done].
  apply Z.eqb_neq. by apply Hforeign.
Qed.

Lemma basket_item_of_another_user_witness :
  update_basket_item 1 1 2 Sample.shop
    = (Raise (HTTPException 404 "Basket item not found"), [])
  ∧ remove_basket_item 1 2 Sample.shop
    = (Raise (HTTPException 404 "Basket item not found"), [])
  ∧ stored Sample.shop (update_basket_item 1 1 2 Sample.shop) = Sample.shop
  ∧ stored Sample.shop (remove_basket_item 1 2 Sample.shop) = Sample.shop.
Proof.
  apply basket_item_of_another_user.
  intros b Hb _. apply list_elem_of_singleton in Hb. by subst b.
Defined.

(** X9: when [update_basket_item] answers with a row, that row is a
    stored row of the user with the given identifier whose quantity has
    been replaced by the new one, the new quantity is not above the stock
    of its product, and the stored rows are that row together with the
    old rows under other identifiers. *)
Theorem update_basket_item_sets_quantity (basket_item_id quantity user_id : Z)
    (db : DB.t) (row : BasketItem.t) :
  answer (update_basket_item basket_item_id quantity user_id db) = Ok row →
  ∃ old product,
    old ∈ DB.basket_items db
    ∧ BasketItem.id old = basket_item_id
    ∧ BasketItem.user_id old = user_id
    ∧ row = BasketItem.set_quantity quantity old
    ∧ DB.products db !! BasketItem.product_id old = Some product
    ∧ quantity ≤ Product.stock product
    ∧ ∀ b,
        b ∈ DB.basket_items
              (stored db (update_basket_item basket_item_id quantity user_id db))
        ↔ b = row
          ∨ (b ∈ DB.basket_items db ∧ BasketItem.id b ≠ basket_item_id).
Proof.
  unfold update_basket_item, stored.
  destruct (List.find _ _) as [old|] eqn:Hfind; [|done].
  apply find_Some_elem in Hfind as [Hold Hmatch].
  apply andb_true_iff in Hmatch as [Hid Hu].
  apply Z.eqb_eq in Hid, Hu.
  destruct (DB.products db !! BasketItem.product_id old) as [product|] eqn:Hp;
    [|done].
  destruct (Z.ltb_spec (Product.stock product) quantity); [done|].
  intros [= <-]. exists old, product. repeat split; try done.
  - simpl. rewrite elem_of_update_basket_row. simpl. rewrite Hid.
    intros [[-> _]|?]; [by left | by right].
  - simpl. rewrite elem_of_update_basket_row. simpl. rewrite Hid.
    intros [->|?]; [left | by right]. split; [done|]. by exists old.
Qed.

Lemma update_basket_item_sets_quantity_witness :
  ∃ old product,
    old ∈ DB.basket_items Sample.shop
    ∧ BasketItem.id old = 1
    ∧ BasketItem.user_id old = 1
    ∧ BasketItem.mk 1 1 1 5 = BasketItem.set_quantity 5 old
    ∧ DB.products Sample.shop !! BasketItem.product_id old = Some product
    ∧ 5 ≤ Product.stock product
    ∧ ∀ b,
        b ∈ DB.basket_items
              (stored Sample.shop (update_basket_item 1 5 1 Sample.shop))
        ↔ b = BasketItem.mk 1 1 1 5
          ∨ (b ∈ DB.basket_items Sample.shop ∧ BasketItem.id b ≠ 1).
Proof.
  apply (update_basket_item_sets_quantity 1 5 1 Sample.shop
           (BasketItem.mk 1 1 1 5)).
  by vm_compute.
Defined.

(** X10: when [remove_basket_item] answers, a row with the given
    identifier belonged to the user, and the stored rows are the old
    rows under other identifiers. *)
Theorem remove_basket_item_removes (basket_item_id user_id : Z) (db : DB.t) :
  answer (remove_basket_item basket_item_id user_id db) = Ok tt →
  (∃ old, old ∈ DB.basket_items db
          ∧ BasketItem.id old = basket_item_id
          ∧ BasketItem.user_id old = user_id)
  ∧ DB.basket_items (stored db (remove_basket_item basket_item_id user_id db))
    = filter (fun b => BasketItem.id b ≠ basket_item_id) (DB.basket_items db).
Proof.
  unfold remove_basket_item, stored.
  destruct (List.find _ _) as [old|] eqn:Hfind; [|done].
  apply find_Some_elem in Hfind as [Hold Hmatch].
  apply andb_true_iff in Hmatch as [Hid Hu].
  apply Z.eqb_eq in Hid, Hu. intros _. simpl. rewrite Hid.
  split; [by exists old | done].
Qed.

Lemma remove_basket_item_removes_witness :
  (∃ old, old ∈ DB.basket_items Sample.contended
          ∧ BasketItem.id old = 2
          ∧ BasketItem.user_id old = 2)
  ∧ DB.basket_items
      (stored Sample.contended (remove_basket_item 2 2 Sample.contended))
    = filter (fun b => BasketItem.id b ≠ 2) (DB.basket_items Sample.contended).
Proof. apply remove_basket_item_removes. by vm_compute. Defined.

(** X11: [clear_basket] always answers and commits once.  Afterwards the
    user has no basket row and the other baskets are as before; clearing
    again changes nothing more, and a [create_order] of that user is then
    refused with 400 "Basket is empty". *)
Theorem clear_basket_clears (user_id : Z) (db : DB.t) :
  let cleared := stored db (clear_basket user_id db) in
  answer (clear_basket user_id db) = Ok tt
  ∧ basket_of user_id cleared = []
  ∧ (∀ other, other ≠ user_id → basket_of other cleared = basket_of other db)
  ∧ stored cleared (clear_basket user_id cleared) = cleared
  ∧ create_order user_id cleared
    = (Raise (HTTPException 400 "Basket is empty"), []).
Proof.
  intros cleared.
  assert (basket_of user_id cleared = []) as Hempty.
  { unfold cleared, basket_of, stored. simpl. rewrite list_filter_filter.
    apply filter_none. by intros b _ [? ?]. }
  split; [done|]. split; [done|]. split; [|split].
  - intros other Hother. unfold cleared, basket_of, stored. simpl.
    rewrite list_filter_filter. apply list_filter_iff. intros b.
    split; [tauto|]. intros Hu. split; [done|]. congruence.
  - unfold cleared, stored. simpl. unfold DB.set_basket_items. simpl.
    f_equal. rewrite list_filter_filter. apply list_filter_iff. tauto.
  - unfold create_order. by rewrite Hempty.
Qed.

(** ** What sequences of requests keep *)

Lemma create_order_basket_sublist (user_id : Z) (db : DB.t) :
  DB.basket_items (stored db (create_order user_id db))
    `sublist_of` DB.basket_items db.
Proof.
  unfold create_order, stored, insert_order.
  destruct (basket_of user_id db) as [|item rest] eqn:Hbasket; [done|].
  rewrite <- Hbasket. clear item rest Hbasket.
  destruct (price_basket _ _ _) as [total|e]; [|done].
  destruct (fulfil_basket _ _ _) as [db2|e] eqn:Hfulfil; [|done].
  apply fulfil_basket_inv in Hfulfil as (_ & _ & Hb & _).
  simpl in Hb |- *. rewrite Hb. apply sublist_filter.
Qed.

Lemma sublist_keeps_keys (rows rows' : list BasketItem.t) :
  rows' `sublist_of` rows →
  NoDup (BasketItem.id <$> rows)
  ∧ NoDup ((fun b => (BasketItem.user_id b, BasketItem.product_id b)) <$> rows) →
  NoDup (BasketItem.id <$> rows')
  ∧ NoDup ((fun b => (BasketItem.user_id b, BasketItem.product_id b)) <$> rows').
Proof.
  intros Hsub [Hids Hrows].
  split; (eapply sublist_NoDup; [eassumption|]); by apply fmap_sublist.
Qed.

Lemma run_basket_op_keys (op : BasketOp) (db : DB.t) :
  basket_ids_unique db ∧ basket_rows_unique db →
  basket_ids_unique (run_basket_op db op)
  ∧ basket_rows_unique (run_basket_op db op).
Proof.
  unfold basket_ids_unique, basket_rows_unique. intros Hkeys.
  destruct op as [product_id quantity user_id|basket_item_id quantity user_id
                 |basket_item_id user_id|user_id]; simpl.
  - unfold add_to_basket, stored.
    destruct (DB.products db !! product_id) as [product|]; [|done].
    destruct (Product.stock product <? quantity); [done|].
    destruct (List.find _ _) as [old|] eqn:Hfind; simpl.
    + apply find_Some_elem in Hfind as [Hold _]. destruct Hkeys as [Hids Hrows].
      by rewrite !update_basket_row_fmap.
    + destruct Hkeys as [Hids Hrows]. rewrite !fmap_app. simpl.
      split; apply NoDup_app; (split; [done|]);
        (split; [|apply NoDup_singleton]); intros x Hx Hnew;
        apply list_elem_of_singleton in Hnew; subst x;
        apply list_elem_of_fmap in Hx as (b & Hb & Hin).
      * assert (BasketItem.id b
                < next_id (BasketItem.id <$> DB.basket_items db)); [|lia].
        apply next_id_above. by apply list_elem_of_fmap_2.
      * injection Hb as Hu Hp.
        assert ((BasketItem.user_id b =? user_id)
                && (BasketItem.product_id b =? product_id) = false) as Hf
          by (by apply (proj1 (find_none_iff _ _) Hfind)).
        by rewrite <- Hu, <- Hp, !Z.eqb_refl in Hf.
  - unfold update_basket_item, stored.
    destruct (List.find _ _) as [old|] eqn:Hfind; [|done].
    apply find_Some_elem in Hfind as [Hold _].
    destruct (DB.products db !! BasketItem.product_id old) as [product|];
      [|done].
    destruct (Product.stock product <? quantity); [done|]. simpl.
    destruct Hkeys as [Hids Hrows]. by rewrite !update_basket_row_fmap.
  - unfold remove_basket_item, stored.
    destruct (List.find _ _) as [old|]; [|done]. simpl.
    eapply sublist_keeps_keys; [|exact Hkeys]. apply sublist_filter.
  - unfold stored. simpl.
    eapply sublist_keeps_keys; [|exact Hkeys]. apply sublist_filter.
Qed.

Lemma run_op_keys (op : OrderOp) (db : DB.t) :
  basket_ids_unique db ∧ basket_rows_unique db →
  basket_ids_unique (run_op db op) ∧ basket_rows_unique (run_op db op).
Proof.
  unfold basket_ids_unique, basket_rows_unique. intros Hkeys.
  destruct op as [user_id|order_id user_id]; simpl.
  - eapply sublist_keeps_keys; [|exact Hkeys]. apply create_order_basket_sublist.
  - unfold cancel_order, stored. by destruct (List.find _ _).
Qed.

Lemma run_basket_op_frame (op : BasketOp) (db : DB.t) :
  DB.users (run_basket_op db op) = DB.users db
  ∧ DB.products (run_basket_op db op) = DB.products db
  ∧ DB.orders (run_basket_op db op) = DB.orders db
  ∧ DB.order_items (run_basket_op db op) = DB.order_items db.
Proof.
  destruct op as [product_id quantity user_id|basket_item_id quantity user_id
                 |basket_item_id user_id|user_id]; simpl.
  - unfold add_to_basket, stored.
    destruct (DB.products db !! product_id) as [product|]; [|done].
    destruct (Product.stock product <? quantity); [done|].
    by destruct (List.find _ _).
  - unfold update_basket_item, stored.
    destruct (List.find _ _) as [old|]; [|done].
    destruct (DB.products db !! BasketItem.product_id old) as [product|];
      [|done].
    by destruct (Product.stock product <? quantity).
  - unfold remove_basket_item, stored. by destruct (List.find _ _).
  - done.
Qed.

Lemma run_basket_op_quantities (op : BasketOp) (db : DB.t) :
  quantity_nonneg (BasketRequest op) →
  Forall (fun b => 0 ≤ BasketItem.quantity b) (DB.basket_items db) →
  Forall (fun b => 0 ≤ BasketItem.quantity b)
    (DB.basket_items (run_basket_op db op)).
Proof.
  intros Hq Hall. rewrite Forall_forall in Hall.
  destruct op as [product_id quantity user_id|basket_item_id quantity user_id
                 |basket_item_id user_id|user_id]; simpl in Hq |- *;
    apply Forall_forall.
  - unfold add_to_basket, stored.
    destruct (DB.products db !! product_id) as [product|]; [|done].
    destruct (Product.stock product <? quantity); [done|].
    destruct (List.find _ _) as [old|] eqn:Hfind; simpl.
    + apply find_Some_elem in Hfind as [Hold _]. intros b Hb.
      apply elem_of_update_basket_row in Hb as [[-> _]|[Hb _]]; [|by apply Hall].
      simpl. specialize (Hall old Hold). simpl in Hall. lia.
    + intros b Hb. apply elem_of_app in Hb as [Hb|Hb]; [by apply Hall|].
      apply list_elem_of_singleton in Hb. by subst b.
  - unfold update_basket_item, stored.
    destruct (List.find _ _) as [old|]; [|done].
    destruct (DB.products db !! BasketItem.product_id old) as [product|];
      [|done].
    destruct (Product.stock product <? quantity); [done|]. simpl.
    intros b Hb.
    by apply elem_of_update_basket_row in Hb as [[-> _]|[Hb _]]; [|apply Hall].
  - unfold remove_basket_item, stored.
    destruct (List.find _ _) as [old|]; [|done]. simpl.
    intros b Hb. apply list_elem_of_filter in Hb as [_ Hb]. by apply Hall.
  - unfold stored. simpl.
    intros b Hb. apply list_elem_of_filter in Hb as [_ Hb]. by apply Hall.
Qed.

Lemma run_request_sound (r : Request) (db : DB.t) :
  quantity_nonneg r →
  sound db ∧ basket_ids_unique db →
  sound (run_request db r) ∧ basket_ids_unique (run_request db r).
Proof.
  intros Hq [Hsound Hids]. destruct r as [op|op]; simpl.
  - destruct Hsound as (Hstock & [Hbq Hoq] & Hrows).
    destruct (run_basket_op_keys op db) as [Hids' Hrows']; [done|].
    destruct (run_basket_op_frame op db) as (_ & Hp & _ & Hoi).
    split; [|done]. split; [|split; [split|]]; try done.
    + unfold stocks_nonneg. by rewrite Hp.
    + by apply run_basket_op_quantities.
    + by rewrite Hoi.
  - destruct (run_op_keys op db) as [Hids' _];
      [split; [done | by destruct Hsound as (_ & _ & ?)]|].
    split; [|done]. destruct op as [user_id|order_id user_id]; simpl.
    + by apply create_order_sound.
    + by apply cancel_order_sound.
Qed.

(** X12: the basket requests and the order requests keep the basket
    table keyed: if the rows have distinct identifiers and no user has
    two rows for one product, that is still so after any sequence of
    [add_to_basket], [update_basket_item], [remove_basket_item],
    [clear_basket], [create_order] and [cancel_order]. *)
Theorem requests_keep_basket_keys (rs : list Request) (db : DB.t) :
  basket_ids_unique db →
  basket_rows_unique db →
  basket_ids_unique (run_requests rs db)
  ∧ basket_rows_unique (run_requests rs db).
Proof.
  revert db. induction rs as [|r rs IH]; intros db Hids Hrows; [done|].
  simpl.
  assert (basket_ids_unique (run_request db r)
          ∧ basket_rows_unique (run_request db r)) as [Hids' Hrows'].
  { destruct r as [op|op]; simpl;
      [by apply run_basket_op_keys | by apply run_op_keys]. }
  by apply IH.
Qed.

Lemma requests_keep_basket_keys_witness :
  let rs := [BasketRequest (AddToBasket 1 1 1);
             BasketRequest (AddToBasket 1 1 2);
             OrderRequest (CreateOrder 1);
             BasketRequest (AddToBasket 1 1 1);
             BasketRequest (RemoveBasketItem 2 2)] in
  basket_ids_unique (run_requests rs Sample.shop)
  ∧ basket_rows_unique (run_requests rs Sample.shop).
Proof.
  apply requests_keep_basket_keys; apply (bool_decide_unpack _); by vm_compute.
Defined.

(** X13: when all stocks and all stored quantities are non-negative and
    the basket table is keyed, then after any sequence of basket and
    order requests that put no negative quantity into a basket every
    stock and every stored quantity is still non-negative. *)
Theorem requests_keep_stock_nonneg (rs : list Request) (db : DB.t) :
  stocks_nonneg db →
  quantities_nonneg db →
  basket_rows_unique db →
  basket_ids_unique db →
  Forall quantity_nonneg rs →
  stocks_nonneg (run_requests rs db) ∧ quantities_nonneg (run_requests rs db).
Proof.
  intros Hstock Hq Hrows Hids Hrs.
  assert (sound (run_requests rs db) ∧ basket_ids_unique (run_requests rs db))
    as [(? & ? & _) _]; [|done].
  assert (sound db ∧ basket_ids_unique db) as Hinv by done.
  clear Hstock Hq Hrows Hids. revert db Hinv.
  induction Hrs as [|r rs Hr _ IH]; intros db Hinv; [done|].
  simpl. apply IH. by apply run_request_sound.
Qed.

Lemma requests_keep_stock_nonneg_witness :
  let rs := [BasketRequest (AddToBasket 1 2 2);
             BasketRequest (UpdateBasketItem 1 5 1);
             OrderRequest (CreateOrder 1);
             OrderRequest (CreateOrder 2);
             OrderRequest (CancelOrder 1 1);
             BasketRequest (ClearBasket 2)] in
  stocks_nonneg (run_requests rs Sample.shop)
  ∧ quantities_nonneg (run_requests rs Sample.shop).
Proof.
  apply requests_keep_stock_nonneg.
  - apply map_Forall_singleton. simpl. lia.
  - split; repeat constructor; simpl; lia.
  - apply (bool_decide_unpack _). by vm_compute.
  - apply (bool_decide_unpack _). by vm_compute.
  - repeat constructor; simpl; lia.
Defined.

(** X14: the basket endpoints reserve nothing.  After any sequence of
    [add_to_basket], [update_basket_item], [remove_basket_item] and
    [clear_basket] the users, the products with their stock, the orders
    and the order items are what they were. *)
Theorem basket_requests_reserve_nothing (ops : list BasketOp) (db : DB.t) :
  let db' := run_requests (BasketRequest <$> ops) db in
  DB.users db' = DB.users db
  ∧ DB.products db' = DB.products db
  ∧ DB.orders db' = DB.orders db
  ∧ DB.order_items db' = DB.order_items db.
Proof.
  cbv zeta. revert db. induction ops as [|op ops IH]; intros db; [done|].
  rewrite fmap_cons. unfold run_requests in *. simpl fold_left.
  destruct (IH (run_basket_op db op)) as (-> & -> & -> & ->).
  apply run_basket_op_frame.
Qed.

Lemma grows_from_refl (db : DB.t) : grows_from db db.
Proof. by repeat split. Qed.

Lemma grows_from_trans (db1 db2 db3 : DB.t) :
  grows_from db1 db2 → grows_from db2 db3 → grows_from db1 db3.
Proof.
  intros (Ho & Hi & Hp) (Ho' & Hi' & Hp'). repeat split.
  - by etrans.
  - by etrans.
  - intros product_id. by rewrite Hp', Hp.
Qed.

Lemma run_op_grows (op : OrderOp) (db : DB.t) : grows_from db (run_op db op).
Proof.
  destruct op as [user_id|order_id user_id]; simpl.
  - unfold create_order, stored, insert_order.
    destruct (basket_of user_id db) as [|item rest] eqn:Hbasket;
      [apply grows_from_refl|].
    rewrite <- Hbasket. clear item rest Hbasket.
    destruct (price_basket _ _ _) as [total|e]; [|apply grows_from_refl].
    destruct (fulfil_basket _ _ _) as [db2|e] eqn:Hfulfil.
    + apply fulfil_basket_inv in Hfulfil
        as (_ & Ho & _ & (new_items & Hi & _) & Hps).
      simpl in Ho, Hi, Hps |- *. repeat split.
      * rewrite Ho. by apply prefix_app_r.
      * rewrite Hi. by apply prefix_app_r.
      * intros product_id. rewrite Hps.
        by destruct (DB.products db !! product_id).
    + simpl. repeat split; [by apply prefix_app_r | done].
  - unfold cancel_order, stored.
    destruct (List.find _ _) as [order|]; [|apply grows_from_refl].
    simpl. repeat split; [done|done|].
    intros product_id. simpl. rewrite restore_items_lookup.
    by destruct (DB.products db !! product_id).
Qed.

Lemma run_request_grows (r : Request) (db : DB.t) :
  grows_from db (run_request db r).
Proof.
  destruct r as [op|op]; simpl; [|apply run_op_grows].
  destruct (run_basket_op_frame op db) as (_ & Hp & Ho & Hi).
  unfold grows_from. by rewrite Hp, Ho, Hi.
Qed.

(** X15: orders and order items are only ever appended, and no request
    adds or drops a product or changes its name, description or price:
    after any sequence of basket and order requests the old orders and
    order items are still stored, unchanged and in their places, and
    every product has the name, description and price it had. *)
Theorem requests_append_only (rs : list Request) (db : DB.t) :
  grows_from db (run_requests rs db).
Proof.
  revert db. induction rs as [|r rs IH]; intros db; [apply grows_from_refl|].
  simpl. eapply grows_from_trans; [apply run_request_grows | apply IH].
Qed.

(** ** Reading and cancelling orders *)

(** X16: [get_order] only answers with an order of the user: the order
    it answers with is stored under the given identifier, is owned by the
    given user, and is among the orders [get_orders] lists for that user;
    neither endpoint commits. *)
Theorem get_order_owned (order_id user_id : Z) (db : DB.t) (order : Order.t) :
  answer (get_order order_id user_id db) = Ok order →
  order ∈ DB.orders db
  ∧ Order.id order = order_id
  ∧ Order.user_id order = user_id
  ∧ (∃ listed, get_orders user_id db = (Ok listed, []) ∧ order ∈ listed)
  ∧ commits (get_order order_id user_id db) = [].
Proof.
  unfold get_order, get_orders.
  destruct (List.find _ _) as [o|] eqn:Hfind; [|done].
  intros [= ->]. apply find_Some_elem in Hfind as [Hin Hmatch].
  apply andb_true_iff in Hmatch as [Hid Hu]. apply Z.eqb_eq in Hid, Hu.
  repeat split; try done. eexists. split; [done|].
  by apply list_elem_of_filter.
Qed.

Lemma get_order_owned_witness :
  let db := stored Sample.shop (create_order 1 Sample.shop) in
  let order := Order.mk 1 1 5997 in
  order ∈ DB.orders db
  ∧ Order.id order = 1
  ∧ Order.user_id order = 1
  ∧ (∃ listed, get_orders 1 db = (Ok listed, []) ∧ order ∈ listed)
  ∧ commits (get_order 1 1 db) = [].
Proof.
  apply (get_order_owned 1 1 (stored Sample.shop (create_order 1 Sample.shop))
           (Order.mk 1 1 5997)).
  by vm_compute.
Defined.

Lemma order_quantity_absent (product_id : Z) (items : list OrderItem.t) :
  product_id ∉ OrderItem.product_id <$> items →
  order_quantity product_id items = 0.
Proof.
  induction items as [|item rest IH]; intros Hnot; [done|]. simpl.
  rewrite fmap_cons, not_elem_of_cons in Hnot. destruct Hnot as [Hne Hrest].
  destruct (decide (OrderItem.product_id item = product_id)); [done|].
  by apply IH.
Qed.

(** X18: a [cancel_order] that answers touches stock only: users, basket
    rows, orders and order items are unchanged, no product is added or
    dropped, and a product that no item of the order refers to keeps its
    whole row. *)
Theorem cancel_order_touches_stock_only (order_id user_id : Z) (db : DB.t)
    (order : Order.t) :
  answer (cancel_order order_id user_id db) = Ok order →
  let cancelled := stored db (cancel_order order_id user_id db) in
  DB.users cancelled = DB.users db
  ∧ DB.basket_items cancelled = DB.basket_items db
  ∧ DB.orders cancelled = DB.orders db
  ∧ DB.order_items cancelled = DB.order_items db
  ∧ dom (DB.products cancelled) = dom (DB.products db)
  ∧ ∀ product_id,
      product_id ∉ OrderItem.product_id <$> items_of_order order_id db →
      DB.products cancelled !! product_id = DB.products db !! product_id.
Proof.
  intros Hok cancelled.
  destruct (cancel_order_Ok_inv _ _ _ _ Hok) as [_ Hrun].
  unfold cancelled, stored. rewrite Hrun. simpl. repeat split.
  - apply set_eq. intros product_id. rewrite !elem_of_dom.
    rewrite restore_items_lookup.
    by rewrite <- !not_eq_None_Some, fmap_None.
  - intros product_id Hnot.
    rewrite restore_items_lookup, (order_quantity_absent _ _ Hnot).
    destruct (DB.products db !! product_id) as [[]|]; simpl; [|done].
    unfold Product.set_stock. simpl. do 2 f_equal. lia.
Qed.

Lemma cancel_order_touches_stock_only_witness :
  let db := stored Sample.shop (create_order 1 Sample.shop) in
  let cancelled := stored db (cancel_order 1 1 db) in
  DB.users cancelled = DB.users db
  ∧ DB.basket_items cancelled = DB.basket_items db
  ∧ DB.orders cancelled = DB.orders db
  ∧ DB.order_items cancelled = DB.order_items db
  ∧ dom (DB.products cancelled) = dom (DB.products db)
  ∧ ∀ product_id,
      product_id ∉ OrderItem.product_id <$> items_of_order 1 db →
      DB.products cancelled !! product_id = DB.products db !! product_id.
Proof.
  apply (cancel_order_touches_stock_only 1 1
           (stored Sample.shop (create_order 1 Sample.shop))
           (Order.mk 1 1 5997)).
  by vm_compute.
Defined.

(** ** Local users *)

Lemma existsb_false_iff {A} (f : A → bool) (l : list A) :
  existsb f l = false ↔ ∀ x, x ∈ l → f x = false.
Proof.
  induction l as [|y l IH]; simpl.
  - split; [|done]. intros _ x Hx. by apply elem_of_nil in Hx.
  - rewrite orb_false_iff, IH. split.
    + intros [Hy Hl] x Hx. apply elem_of_cons in Hx as [->|Hx]; [done|].
      by apply Hl.
    + intros Hall. split; [apply Hall; by left|].
      intros x Hx. apply Hall. by right.
Qed.

Lemma NoDup_snoc_fmap {A B} (f : A → B) (l : list A) (x : A) :
  NoDup (f <$> l) → (∀ y, y ∈ l → f y ≠ f x) → NoDup (f <$> l ++ [x]).
Proof.
  intros Hnd Hfresh. rewrite fmap_app. apply NoDup_app.
  split; [done|]. split; [|apply NoDup_singleton].
  intros b Hb Hx. apply list_elem_of_singleton in Hx. subst b.
  apply list_elem_of_fmap in Hb as (y & Hy & Hin). by destruct (Hfresh y Hin).
Qed.

(** X19: [get_current_user] is an upsert: once it has answered with a
    user, the same token on the state it left is answered with the same
    user and nothing more is committed. *)
Theorem get_current_user_twice (verify_token : string → option Z)
    (token : string) (db : DB.t) (user : User.t) :
  answer (get_current_user verify_token token db) = Ok user →
  get_current_user verify_token token
    (stored db (get_current_user verify_token token db))
  = (Ok user, []).
Proof.
  unfold get_current_user, get_current_user_id, stored.
  destruct (verify_token token) as [user_id|] eqn:Hvalid; [|done].
  destruct (List.find _ _) as [u|] eqn:Hfind.
  - intros [= ->]. simpl. by rewrite Hfind.
  - destruct (existsb _ _); [done|]. intros [= <-]. simpl.
    rewrite find_app_fresh; [done| |].
    + by apply find_none_iff.
    + simpl. apply Z.eqb_refl.
Qed.

Lemma get_current_user_twice_witness :
  get_current_user Sample.verify_token "valid"
    (stored Sample.shop
       (get_current_user Sample.verify_token "valid" Sample.shop))
  = (Ok (User.mk 7 "User" "user@example.com"), []).
Proof.
  apply (get_current_user_twice Sample.verify_token "valid" Sample.shop
           (User.mk 7 "User" "user@example.com")).
  by vm_compute.
Defined.

(** X20: a valid token of a user without local row is turned down when
    some local user already holds the placeholder e-mail: the commit is
    refused with [IntegrityError] and nothing is stored.  After one
    placeholder row has been created no second one can be. *)
Theorem get_current_user_placeholder_in_use (verify_token : string → option Z)
    (token : string) (user_id : Z) (db : DB.t) :
  verify_token token = Some user_id →
  (∀ u, u ∈ DB.users db → User.id u ≠ user_id) →
  (∃ u, u ∈ DB.users db ∧ User.email u = "user@example.com"%string) →
  get_current_user verify_token token db = (Raise IntegrityError, [])
  ∧ stored db (get_current_user verify_token token db) = db.
Proof.
  intros Hvalid Hid (holder & Hholder & Hemail).
  unfold get_current_user, get_current_user_id, stored. rewrite Hvalid.
  assert (List.find (fun u => User.id u =? user_id) (DB.users db) = None) as ->.
  { apply find_none_iff. intros u Hu. apply Z.eqb_neq. by apply Hid. }
  assert (existsb
            (fun u => String.eqb (User.email u)
                        (User.email (User.mk user_id "User" "user@example.com")))
            (DB.users db) = true) as ->; [|done].
  apply existsb_exists. exists holder. split; [by apply list_elem_of_In|].
  simpl. rewrite Hemail. apply String.eqb_refl.
Qed.

Lemma get_current_user_placeholder_in_use_witness :
  let db := stored Sample.no_users
              (get_current_user Sample.verify_token "valid" Sample.no_users) in
  get_current_user (fun _ => Some 8) "other" db = (Raise IntegrityError, [])
  ∧ stored db (get_current_user (fun _ => Some 8) "other" db) = db.
Proof.
  apply (get_current_user_placeholder_in_use (fun _ => Some 8) "other" 8).
  - done.
  - intros u Hu. apply list_elem_of_singleton in Hu. by subst u.
  - exists (User.mk 7 "User" "user@example.com"). split; [|done].
    by apply list_elem_of_singleton.
Defined.

(** X21: [register_user] answers with a user exactly when no local user
    has the e-mail, the authentication service answers 201, and the
    identifier in its body, if there is one, is not the identifier of a
    local user; when it raises, nothing is stored. *)
Theorem register_user_Ok_iff
    (post_register : string → string → string → Response.t)
    (name email password : string) (db : DB.t) :
  ((∃ user,
      answer (register_user post_register name email password db) = Ok user)
   ↔ (∀ u, u ∈ DB.users db → User.email u ≠ email)
     ∧ Response.status_code (post_register name email password) = 201
     ∧ ∀ id, Json.id (Response.json (post_register name email password))
             = Some id →
             ∀ u, u ∈ DB.users db → User.id u ≠ id)
  ∧ ∀ e, answer (register_user post_register name email password db) = Raise e →
         stored db (register_user post_register name email password db) = db.
Proof.
  unfold register_user, register, stored.
  destruct (existsb (fun u => String.eqb (User.email u) email) (DB.users db))
    eqn:Htaken.
  { split; [|done]. split; [by intros [? ?]|]. intros (Hfree & _).
    apply existsb_exists in Htaken as (u & Hu & Heq).
    apply String.eqb_eq in Heq. destruct (Hfree u); [|done].
    by apply list_elem_of_In. }
  assert (∀ u, u ∈ DB.users db → User.email u ≠ email) as Hfree.
  { intros u Hu Heq. rewrite existsb_false_iff in Htaken.
    specialize (Htaken u Hu). rewrite Heq, String.eqb_refl in Htaken. done. }
  destruct (Z.eqb_spec (Response.status_code (post_register name email password))
              201) as [Hstatus|Hstatus]; simpl.
  2: { split; [|done]. split; [by intros [? ?] | by intros (_ & ? & _)]. }
  destruct (Json.id (Response.json (post_register name email password)))
    as [id|] eqn:Hbody; simpl.
  - destruct (existsb (fun u => User.id u =? id) (DB.users db)) eqn:Hclash.
    + split; [|done]. split; [by intros [? ?]|]. intros (_ & _ & Hid).
      apply existsb_exists in Hclash as (u & Hu & Heq).
      apply Z.eqb_eq in Heq. destruct (Hid id eq_refl u); [|done].
      by apply list_elem_of_In.
    + split; [|done]. split; [|intros _; by eexists].
      intros _. split; [done|]. split; [done|]. intros ? [= <-] u Hu Heq.
      rewrite existsb_false_iff in Hclash. specialize (Hclash u Hu).
      simpl in Hclash. by apply Z.eqb_neq in Hclash.
  - assert (existsb (fun u => User.id u =? next_id (User.id <$> DB.users db))
              (DB.users db) = false) as ->.
    { apply existsb_false_iff. intros u Hu. apply Z.eqb_neq.
      assert (User.id u < next_id (User.id <$> DB.users db)); [|lia].
      apply next_id_above. by apply list_elem_of_fmap_2. }
    split; [|done]. split; [|intros _; by eexists].
    intros _. by repeat split.
Qed.

Lemma elem_of_insert_user (user u : User.t) (users : list User.t) :
  u ∈ insert_user user users ↔ u = user ∨ u ∈ users.
Proof.
  induction users as [|v rest IH]; simpl.
  - rewrite list_elem_of_singleton. split; [by left|].
    intros [?|Hin]; [done|]. by apply elem_of_nil in Hin.
  - destruct (User.id user <? User.id v).
    + by rewrite elem_of_cons.
    + rewrite !elem_of_cons, IH. tauto.
Qed.

Lemma insert_user_Permutation (user : User.t) (users : list User.t) :
  insert_user user users ≡ₚ user :: users.
Proof.
  induction users as [|v rest IH]; simpl; [done|].
  destruct (User.id user <? User.id v); [done|].
  rewrite IH. apply Permutation_swap.
Qed.

Lemma NoDup_fmap_insert_user {B} (f : User.t → B) (user : User.t)
    (users : list User.t) :
  NoDup (f <$> users) → (∀ u, u ∈ users → f u ≠ f user) →
  NoDup (f <$> insert_user user users).
Proof.
  intros Hnd Hfresh. rewrite insert_user_Permutation, fmap_cons.
  apply NoDup_cons. split; [|done]. intros Hin.
  apply list_elem_of_fmap in Hin as (u & Heq & Hu). by destruct (Hfresh u Hu).
Qed.

Lemma find_insert_user (user : User.t) (users : list User.t) :
  (∀ u, u ∈ users → User.id u ≠ User.id user) →
  List.find (fun u => User.id u =? User.id user) (insert_user user users)
  = Some user.
Proof.
  induction users as [|v rest IH]; intros Hfresh; simpl.
  - by rewrite Z.eqb_refl.
  - destruct (User.id user <? User.id v); simpl.
    + by rewrite Z.eqb_refl.
    + destruct (Z.eqb_spec (User.id v) (User.id user)) as [Heq|_].
      * destruct (Hfresh v); [by left | done].
      * apply IH. intros u Hu. apply Hfresh. by right.
Qed.

(** X22: when [register_user] answers with a user, the user has the name
    and the e-mail of the request, and the local users are the old ones
    and that user; [read_users_me] then answers with that row for its
    identifier, and any further registration under the same e-mail is
    refused with 400 "Email already registered", whatever the service
    would say. *)
Theorem register_user_registers
    (post_register : string → string → string → Response.t)
    (name email password : string) (db : DB.t) (user : User.t) :
  answer (register_user post_register name email password db) = Ok user →
  let registered :=
    stored db (register_user post_register name email password db) in
  User.name user = name
  ∧ User.email user = email
  ∧ (∀ u, u ∈ DB.users registered ↔ u = user ∨ u ∈ DB.users db)
  ∧ read_users_me (User.id user) registered = (Ok (LocalUser user), [])
  ∧ ∀ post_register' name' password',
      register_user post_register' name' email password' registered
      = (Raise (HTTPException 400 "Email already registered"), []).
Proof.
  unfold register_user, stored.
  destruct (existsb (fun u => String.eqb (User.email u) email) (DB.users db));
    [done|].
  destruct (register post_register name email password) as [auth_user|];
    [|done].
  destruct (existsb _ (DB.users db)) eqn:Hclash; [done|].
  intros [= <-]. simpl. repeat split.
  - by apply elem_of_insert_user.
  - by apply elem_of_insert_user.
  - pose proof (find_insert_user
                  (User.mk (default (next_id (User.id <$> DB.users db))
                              (Json.id auth_user)) name email)
                  (DB.users db)) as Hfind.
    unfold read_users_me. simpl in Hfind |- *. rewrite Hfind; [done|].
    intros u Hu. rewrite existsb_false_iff in Hclash.
    apply Z.eqb_neq. by apply Hclash.
  - intros post_register' name' password'.
    assert (existsb (fun u => String.eqb (User.email u) email)
              (insert_user
                 (User.mk (default (next_id (User.id <$> DB.users db))
                             (Json.id auth_user)) name email)
                 (DB.users db)) = true) as ->; [|done].
    apply existsb_exists. eexists. split.
    + apply list_elem_of_In, elem_of_insert_user. by left.
    + simpl. apply String.eqb_refl.
Qed.

Lemma register_user_registers_witness :
  let post_register :=
    fun _ _ _ => Response.mk 201 (Json.mk (Some 5) None None) in
  let user := User.mk 5 "eve" "eve@example.com" in
  let db := stored Sample.no_users
              (get_current_user Sample.verify_token "valid" Sample.no_users) in
  let registered :=
    stored db
      (register_user post_register "eve" "eve@example.com" "secret" db) in
  User.name user = "eve"%string
  ∧ User.email user = "eve@example.com"%string
  ∧ (∀ u, u ∈ DB.users registered ↔ u = user ∨ u ∈ DB.users db)
  ∧ read_users_me (User.id user) registered = (Ok (LocalUser user), [])
  ∧ ∀ post_register' name' password',
      register_user post_register' name' "eve@example.com" password' registered
      = (Raise (HTTPException 400 "Email already registered"), []).
Proof.
  apply (register_user_registers
           (fun _ _ _ => Response.mk 201 (Json.mk (Some 5) None None))
           "eve" "eve@example.com" "secret"
           (stored Sample.no_users
              (get_current_user Sample.verify_token "valid" Sample.no_users))
           (User.mk 5 "eve" "eve@example.com")).
  by vm_compute.
Defined.

(** The service's identifier 5 is listed before the local user 7. *)
Example register_user_by_primary_key :
  let db := stored Sample.no_users
              (get_current_user Sample.verify_token "valid" Sample.no_users) in
  User.id
    <$> DB.users
          (stored db
             (register_user
                (fun _ _ _ => Response.mk 201 (Json.mk (Some 5) None None))
                "eve" "eve@example.com" "secret" db))
  = [5; 7].
Proof. by vm_compute. Qed.

(** X23: [register_user] and [get_current_user] keep the local users
    keyed: if no two of them share an identifier or an e-mail before the
    request, none do after it. *)
Theorem users_stay_unique
    (post_register : string → string → string → Response.t)
    (verify_token : string → option Z)
    (name email password token : string) (db : DB.t) :
  users_unique db →
  users_unique (stored db (register_user post_register name email password db))
  ∧ users_unique (stored db (get_current_user verify_token token db)).
Proof.
  intros [Hids Hemails]. split.
  - unfold register_user, stored.
    destruct (existsb (fun u => String.eqb (User.email u) email) (DB.users db))
      eqn:Htaken; [done|].
    destruct (register post_register name email password) as [auth_user|];
      [|done].
    destruct (existsb (fun u => User.id u =? _) (DB.users db)) eqn:Hclash;
      [done|]. simpl.
    rewrite existsb_false_iff in Htaken, Hclash.
    split; apply NoDup_fmap_insert_user; try done; intros u Hu; simpl.
    + apply Z.eqb_neq. by apply Hclash.
    + apply String.eqb_neq. by apply Htaken.
  - unfold get_current_user, get_current_user_id, stored.
    destruct (verify_token token) as [user_id|]; [|done].
    destruct (List.find _ _) as [u|] eqn:Hfind; [done|].
    destruct (existsb _ _) eqn:Htaken; [done|]. simpl.
    rewrite existsb_false_iff in Htaken. rewrite find_none_iff in Hfind.
    split; apply NoDup_snoc_fmap; try done; intros u Hu; simpl.
    + apply Z.eqb_neq. by apply Hfind.
    + apply String.eqb_neq. by apply Htaken.
Qed.

Lemma users_stay_unique_witness :
  users_unique
    (stored Sample.contended
       (register_user
          (fun _ _ _ => Response.mk 201 (Json.mk (Some 5) None None))
          "eve" "eve@example.com" "secret" Sample.contended))
  ∧ users_unique
      (stored Sample.contended
         (get_current_user Sample.verify_token "valid" Sample.contended)).
Proof.
  apply users_stay_unique.
  split; apply (bool_decide_unpack _); by vm_compute.
Defined.

(** X24: a token authenticates exactly when the service answers 200 with
    a user identifier in the body.  In every other case
    [get_current_user_id] raises 401 and an endpoint that depends on it
    is not run: it answers 401 and commits nothing. *)
Theorem token_authenticates_iff (post_verify_token : string → Response.t)
    (token : string) :
  (∀ user_id,
     get_current_user_id (verify_token post_verify_token) token = Ok user_id
     ↔ Response.status_code (post_verify_token token) = 200
       ∧ Json.user_id (Response.json (post_verify_token token)) = Some user_id)
  ∧ ((Response.status_code (post_verify_token token) ≠ 200
      ∨ Json.user_id (Response.json (post_verify_token token)) = None) →
     ∀ A (handler : Z → DB.t → Reply A) db,
       authenticated (verify_token post_verify_token) handler token db
       = (Raise (HTTPException 401 "Could not validate credentials"), [])).
Proof.
  unfold authenticated, get_current_user_id, verify_token.
  destruct (Z.eqb_spec (Response.status_code (post_verify_token token)) 200)
    as [Hstatus|Hstatus]; simpl.
  - destruct (Json.user_id (Response.json (post_verify_token token)))
      as [uid|]; split.
    + intros user_id. split; [by intros [= ->] | by intros [_ [= ->]]].
    + by intros [?|?].
    + intros user_id. split; [done | by intros [_ ?]].
    + done.
  - split; [|done]. intros user_id. split; [done | by intros [? _]].
Qed.

(** ** The order tables stay keyed *)

Lemma run_op_order_ids (op : OrderOp) (db : DB.t) :
  NoDup (Order.id <$> DB.orders db) →
  NoDup (Order.id <$> DB.orders (run_op db op)).
Proof.
  intros Hnd. destruct op as [user_id|order_id user_id]; simpl.
  - assert (∀ total,
              NoDup (Order.id <$> DB.orders db
                       ++ [Order.mk (next_id (Order.id <$> DB.orders db))
                             user_id total])) as Hnew.
    { intros total. apply NoDup_snoc_fmap; [done|]. intros o Ho. simpl.
      assert (Order.id o < next_id (Order.id <$> DB.orders db)); [|lia].
      apply next_id_above. by apply list_elem_of_fmap_2. }
    unfold create_order, stored, insert_order.
    destruct (basket_of user_id db) as [|item rest] eqn:Hbasket; [done|].
    rewrite <- Hbasket. clear item rest Hbasket.
    destruct (price_basket _ _ _) as [total|e]; [|done].
    destruct (fulfil_basket _ _ _) as [db2|e] eqn:Hfulfil; [|by apply Hnew].
    apply fulfil_basket_inv in Hfulfil as (_ & Ho & _).
    simpl in Ho |- *. rewrite Ho. apply Hnew.
  - unfold cancel_order, stored. by destruct (List.find _ _).
Qed.

(** X25: the order tables stay keyed.  If the stored orders have
    distinct identifiers and every stored order item belongs to a stored
    order, both still hold after any sequence of basket and order
    requests. *)
Theorem requests_keep_orders_keyed (rs : list Request) (db : DB.t) :
  NoDup (Order.id <$> DB.orders db) →
  order_items_have_order db →
  NoDup (Order.id <$> DB.orders (run_requests rs db))
  ∧ order_items_have_order (run_requests rs db).
Proof.
  revert db. induction rs as [|r rs IH]; intros db Hids Hfk; [done|].
  simpl. apply IH; destruct r as [op|op]; simpl.
  - destruct (run_basket_op_frame op db) as (_ & _ & Ho & _). by rewrite Ho.
  - by apply run_op_order_ids.
  - destruct (run_basket_op_frame op db) as (_ & _ & Ho & Hi).
    unfold order_items_have_order. by rewrite Ho, Hi.
  - destruct op as [user_id|order_id user_id]; simpl.
    + by apply create_order_keeps_items_attached.
    + by apply cancel_order_keeps_items_attached.
Qed.

Lemma requests_keep_orders_keyed_witness :
  let rs := [OrderRequest (CreateOrder 1);
             BasketRequest (AddToBasket 1 1 1);
             OrderRequest (CreateOrder 1);
             OrderRequest (CancelOrder 1 1)] in
  NoDup (Order.id <$> DB.orders (run_requests rs Sample.shop))
  ∧ order_items_have_order (run_requests rs Sample.shop).
Proof.
  apply requests_keep_orders_keyed.
  - constructor.
  - constructor.
Defined.
